(** * Probe classification and the routing-probe responder of package [network]

    A shallow embedding of [network/network.go]: the package constants, the
    two predicates [IsKubeletProbe] and [IsKProbe], and the handler
    [ServeKProbe], together with the parts of the Go standard library they
    call ([strings.HasPrefix], [strconv.Quote] behind the verb [%q],
    [textproto.CanonicalMIMEHeaderKey], [http.Header], [http.Error] and the
    recording response writer of [net/http/httptest]).

    Go strings are byte sequences and are modelled as [string]; an
    [http.Header] is a [map[string][]string] and is modelled as a
    [gmap string (list string)]; a nil map reads like the empty one.  Go's
    [int] and [time.Duration] values are modelled in [Z]. *)

From Stdlib Require Import String Ascii NArith ZArith List Bool Lia.
From stdpp Require Import base option gmap strings.

Local Open Scope string_scope.

(** ** Bytes *)

Definition byte_code (c : ascii) : N := N_of_ascii c.

Definition LF : ascii := "010"%char.
Definition DQUOTE : ascii := "034"%char.
Definition BACKSLASH : ascii := "092"%char.

Definition in_range (lo hi c : ascii) : bool :=
  (byte_code lo <=? byte_code c)%N && (byte_code c <=? byte_code hi)%N.

(** ** Package [strings] *)

Module gostrings.

(** [func HasPrefix(s, prefix string) bool]:
    [len(s) >= len(prefix) && s[:len(prefix)] == prefix]. *)
Definition HasPrefix (s prefix : string) : bool :=
  (String.length prefix <=? String.length s)%nat
  && String.eqb (String.substring 0 (String.length prefix) s) prefix.

End gostrings.

(** ** Package [strconv]: the quoting behind the verb [%q] *)

Module strconv.

Definition lowerhex : string := "0123456789abcdef".

Definition hexdigit (n : N) : ascii :=
  match String.get (N.to_nat n) lowerhex with
  | Some d => d
  | None => "0"%char
  end.

(** [IsPrint] on the ASCII range. *)
Definition IsPrintASCII (c : ascii) : bool :=
  (32 <=? byte_code c)%N && (byte_code c <? 127)%N.

Definition hexEscape (c : ascii) : string :=
  String BACKSLASH
    (String "x"%char
       (String (hexdigit (N.shiftr (byte_code c) 4))
          (String (hexdigit (N.land (byte_code c) 15)) EmptyString))).

(** [appendEscapedRune] for one byte, the quote being the double quote
    character.  A byte below 0x80
    is a rune of its own.  A byte from 0x80 on is rendered the way
    [appendQuotedWith] renders a byte that does not start a valid UTF-8
    sequence; multi-byte runes are outside this model. *)
Definition appendEscapedByte (c : ascii) : string :=
  if Ascii.eqb c DQUOTE || Ascii.eqb c BACKSLASH then
    String BACKSLASH (String c EmptyString)
  else if IsPrintASCII c then String c EmptyString
  else
    match byte_code c with
    | 7%N => String BACKSLASH "a"
    | 8%N => String BACKSLASH "b"
    | 12%N => String BACKSLASH "f"
    | 10%N => String BACKSLASH "n"
    | 13%N => String BACKSLASH "r"
    | 9%N => String BACKSLASH "t"
    | 11%N => String BACKSLASH "v"
    | _ => hexEscape c
    end.

Fixpoint escapeAll (s : string) : string :=
  match s with
  | EmptyString => EmptyString
  | String c s' => appendEscapedByte c ++ escapeAll s'
  end.

(** [func Quote(s string) string]. *)
Definition Quote (s : string) : string :=
  String DQUOTE (escapeAll s ++ String DQUOTE EmptyString).

End strconv.

(** ** Package [net/textproto]: canonical header keys *)

Module textproto.

Definition bit (c : ascii) : N := N.shiftl 1 (byte_code c).

(** The 128-bit bitmap of [validHeaderFieldByte]: the token bytes of
    RFC 7230. *)
Definition mask : N :=
  fold_right N.lor 0%N
    [ N.shiftl (N.ones 10) (byte_code "0");
      N.shiftl (N.ones 26) (byte_code "a");
      N.shiftl (N.ones 26) (byte_code "A");
      bit "!"; bit "#"; bit "$"; bit "%"; bit "&"; bit "'"; bit "*";
      bit "+"; bit "-"; bit "."; bit "^"; bit "_"; bit "`"; bit "|";
      bit "~" ]%char.

Definition validHeaderFieldByte (c : ascii) : bool :=
  N.testbit mask (byte_code c).

(** [const toLower = 'a' - 'A'] *)
Definition toLower : N := (byte_code "a" - byte_code "A")%N.

(** One iteration of the rewriting loop of [canonicalMIMEHeaderKey]: the
    byte stored back into [a[i]]. *)
Definition canonByte (upper : bool) (c : ascii) : ascii :=
  if upper && in_range "a" "z" c then ascii_of_N (byte_code c - toLower)
  else if negb upper && in_range "A" "Z" c then ascii_of_N (byte_code c + toLower)
  else c.

(** The rewriting loop: first letter upper case and upper case after each
    dash. *)
Fixpoint canonLoop (upper : bool) (a : string) : string :=
  match a with
  | EmptyString => EmptyString
  | String c a' =>
      let c' := canonByte upper c in
      String c' (canonLoop (Ascii.eqb c' "-") a')
  end.

(** The validating loop of [canonicalMIMEHeaderKey]: [None] when a byte is
    neither a token byte nor a space (the function returns its argument with
    [ok = false]); otherwise the final value of [noCanon]. *)
Fixpoint scanKey (noCanon : bool) (a : string) : option bool :=
  match a with
  | EmptyString => Some noCanon
  | String c a' =>
      if validHeaderFieldByte c then scanKey noCanon a'
      else if Ascii.eqb c " " then scanKey true a'
      else None
  end.

(** [func canonicalMIMEHeaderKey(a []byte) (_ string, ok bool)].  The final
    lookup in [commonHeader] returns an interned copy of the same string and
    is not modelled. *)
Definition canonicalMIMEHeaderKey (a : string) : string * bool :=
  match scanKey false a with
  | None => (a, false)
  | Some true => (a, true)
  | Some false => (canonLoop true a, true)
  end.

(** The quick check of [CanonicalMIMEHeaderKey]: [true] when the loop
    reaches one of its two calls of [canonicalMIMEHeaderKey], [false] when it
    returns [s] itself (at a byte that is not a token byte, or at the end). *)
Fixpoint needsRewrite (upper : bool) (s : string) : bool :=
  match s with
  | EmptyString => false
  | String c s' =>
      if negb (validHeaderFieldByte c) then false
      else if upper && in_range "a" "z" c then true
      else if negb upper && in_range "A" "Z" c then true
      else needsRewrite (Ascii.eqb c "-") s'
  end.

(** [func CanonicalMIMEHeaderKey(s string) string]. *)
Definition CanonicalMIMEHeaderKey (s : string) : string :=
  if needsRewrite true s then fst (canonicalMIMEHeaderKey s) else s.

(** [func (h MIMEHeader) Get(key string) string]: the first value
    associated with the key, [""] when there is none. *)
Definition Get (h : gmap string (list string)) (key : string) : string :=
  match h !! CanonicalMIMEHeaderKey key with
  | Some (v :: _) => v
  | _ => ""
  end.

(** [func (h MIMEHeader) Set(key, value string)]:
    [h[CanonicalMIMEHeaderKey(key)] = []string{value}].  It is named [Set_]
    here, [Set] being a sort of the logic. *)
Definition Set_ (h : gmap string (list string)) (key value : string)
  : gmap string (list string) :=
  <[CanonicalMIMEHeaderKey key := [value]]> h.

(** [func (h MIMEHeader) Del(key string)]. *)
Definition Del (h : gmap string (list string)) (key : string)
  : gmap string (list string) :=
  delete (CanonicalMIMEHeaderKey key) h.

End textproto.

(** ** Go calls as computations

    A Go function that works on objects it holds through pointers is a
    computation over the state [S] those pointers refer to.  It returns a
    value and the new state, or it panics. *)

Inductive panicValue : Type :=
| invalidWriteHeaderCode (code : Z).

Inductive result (A : Type) : Type :=
| Ok (a : A)
| Panicked (p : panicValue).

Arguments Ok {A} a.
Arguments Panicked {A} p.

Definition Go (S A : Type) : Type := S -> result (A * S).

Definition ret {S A : Type} (a : A) : Go S A := fun s => Ok (a, s).

Definition bind {S A B : Type} (m : Go S A) (k : A -> Go S B) : Go S B :=
  fun s =>
    match m s with
    | Ok (a, s') => k a s'
    | Panicked p => Panicked p
    end.

Definition panic {S A : Type} (p : panicValue) : Go S A := fun _ => Panicked p.

Definition gets {S A : Type} (f : S -> A) : Go S A := fun s => Ok (f s, s).

Definition modify {S : Type} (f : S -> S) : Go S unit := fun s => Ok (tt, f s).

Declare Scope go_scope.
Delimit Scope go_scope with go.
Notation "x <- m ;; k" := (bind m (fun x => k))
  (at level 100, m at next level, right associativity) : go_scope.
Notation "m ;; k" := (bind m (fun _ => k))
  (at level 100, right associativity) : go_scope.
Local Open Scope go_scope.

(** ** Package [time] *)

Module time.

(** [type Duration int64], a count of nanoseconds. *)
Definition Nanosecond : Z := 1.
Definition Microsecond : Z := 1000 * Nanosecond.
Definition Millisecond : Z := 1000 * Microsecond.
Definition Second : Z := 1000 * Millisecond.

Definition minInt64 : Z := - 2 ^ 63.
Definition maxInt64 : Z := 2 ^ 63 - 1.

End time.

(** ** Package [net/http] *)

Module http.

Abbreviation Header := (gmap string (list string)).

Definition StatusOK : Z := 200.
Definition StatusBadRequest : Z := 400.

(** The fields of [http.Request] that are plain strings, and its header
    (the field [Header], named [Header_] next to the type). *)
Record Request : Type := mkRequest {
  Method : string;
  Proto : string;
  Host : string;
  RequestURI : string;
  Header_ : Header
}.

(** [r.Header.Get(key)]. *)
Definition Request_Header_Get (key : string) : Go Request string :=
  gets (fun r => textproto.Get (Header_ r) key).

(** [type ResponseWriter interface], as the table of its methods over the
    state [W] of an implementation.  [Header()] returns the header map
    itself, which the caller then updates in place: [Header_of] reads that
    map and [Header_put] stores the updated one. *)
Record ResponseWriter (W : Type) : Type := mkResponseWriter {
  Header_of : W -> Header;
  Header_put : Header -> W -> W;
  Write : string -> Go W Z;
  WriteHeader : Z -> Go W unit
}.

Arguments Header_of {W} _ _.
Arguments Header_put {W} _ _ _.
Arguments Write {W} _ _.
Arguments WriteHeader {W} _ _.

Section Writer.

Context {W : Type} (rw : ResponseWriter W).

(** [w.Header().Set(key, value)]. *)
Definition Header_Set (key value : string) : Go W unit :=
  modify (fun w => Header_put rw (textproto.Set_ (Header_of rw w) key value) w).

(** [w.Header().Del(key)]. *)
Definition Header_Del (key : string) : Go W unit :=
  modify (fun w => Header_put rw (textproto.Del (Header_of rw w) key) w).

(** [fmt.Fprintln(w, s)] for one string operand: the operand and a newline,
    in one [Write]. *)
Definition Fprintln (s : string) : Go W Z :=
  Write rw (s ++ String LF EmptyString).

(** [func Error(w ResponseWriter, error string, code int)].  The deletion of
    [Content-Length] is that of Go 1.23 and later. *)
Definition Error (error : string) (code : Z) : Go W unit :=
  Header_Del "Content-Length" ;;
  Header_Set "Content-Type" "text/plain; charset=utf-8" ;;
  Header_Set "X-Content-Type-Options" "nosniff" ;;
  WriteHeader rw code ;;
  _ <- Fprintln error ;;
  ret tt.

End Writer.

End http.

(** ** Package [net/http/httptest]: the recording response writer *)

Module httptest.

Import http.

(** [type ResponseRecorder struct].  [Body] is the content of the buffer
    [NewRecorder] allocates. *)
Record ResponseRecorder : Type := mkResponseRecorder {
  Code : Z;
  HeaderMap : Header;
  Body : string;
  Flushed : bool;
  snapHeader : option Header;
  wroteHeader : bool
}.

(** [func NewRecorder() *ResponseRecorder]. *)
Definition NewRecorder : ResponseRecorder :=
  {| Code := 200; HeaderMap := ∅; Body := ""; Flushed := false;
     snapHeader := None; wroteHeader := false |}.

Definition set_HeaderMap (m : Header) (rw : ResponseRecorder) : ResponseRecorder :=
  {| Code := Code rw; HeaderMap := m; Body := Body rw; Flushed := Flushed rw;
     snapHeader := snapHeader rw; wroteHeader := wroteHeader rw |}.

(** [func checkWriteHeaderCode(code int)]. *)
Definition checkWriteHeaderCode (code : Z) : Go ResponseRecorder unit :=
  if (code <? 100)%Z || (code >? 999)%Z
  then panic (invalidWriteHeaderCode code)
  else ret tt.

(** [func (rw *ResponseRecorder) WriteHeader(code int)]. *)
Definition Recorder_WriteHeader (code : Z) : Go ResponseRecorder unit :=
  wrote <- gets wroteHeader ;;
  if (wrote : bool) then ret tt
  else
    checkWriteHeaderCode code ;;
    modify (fun rw =>
      {| Code := code; HeaderMap := HeaderMap rw; Body := Body rw;
         Flushed := Flushed rw; snapHeader := Some (HeaderMap rw);
         wroteHeader := true |}).

Section Recorder.

(** [http.DetectContentType], the content sniffing algorithm, is left
    abstract. *)
Variable DetectContentType : string -> string.

(** [func (rw *ResponseRecorder) writeHeader(b []byte, str string)], as
    [Write] calls it, with [str] empty. *)
Definition writeHeader (b : string) : Go ResponseRecorder unit :=
  wrote <- gets wroteHeader ;;
  if (wrote : bool) then ret tt
  else
    m <- gets HeaderMap ;;
    let hasType := bool_decide (is_Some (m !! "Content-Type")) in
    let hasTE := negb (String.eqb (textproto.Get m "Transfer-Encoding") "") in
    (if negb hasType && negb hasTE
     then modify (fun rw =>
            set_HeaderMap
              (textproto.Set_ (HeaderMap rw) "Content-Type" (DetectContentType b)) rw)
     else ret tt) ;;
    Recorder_WriteHeader 200.

(** [func (rw *ResponseRecorder) Write(buf []byte) (int, error)].  The write
    is always recorded.  The value returned here is the count [len(buf)] with
    a nil error; a Go version that returns [(0, http.ErrBodyNotAllowed)] for
    a status without body (1xx, 204, 304) records the write all the same, and
    the one caller below, [fmt.Fprintln] inside [http.Error], discards the
    result. *)
Definition Recorder_Write (buf : string) : Go ResponseRecorder Z :=
  writeHeader buf ;;
  modify (fun rw =>
    {| Code := Code rw; HeaderMap := HeaderMap rw; Body := Body rw ++ buf;
       Flushed := Flushed rw; snapHeader := snapHeader rw;
       wroteHeader := wroteHeader rw |}) ;;
  ret (Z.of_nat (String.length buf)).

(** [*ResponseRecorder] implements [http.ResponseWriter]. *)
Definition Recorder : ResponseWriter ResponseRecorder :=
  {| Header_of := HeaderMap;
     Header_put := set_HeaderMap;
     Write := Recorder_Write;
     WriteHeader := Recorder_WriteHeader |}.

End Recorder.

End httptest.

(** ** Package [network] *)

Import http.

Definition DefaultConnTimeout : Z := 200 * time.Millisecond.
Definition DefaultDrainTimeout : Z := 45 * time.Second.
Definition UserAgentKey : string := "User-Agent".
Definition ProbeHeaderName : string := "K-Network-Probe".
Definition ProbeHeaderValue : string := "probe".
Definition HashHeaderName : string := "K-Network-Hash".
Definition KubeProbeUAPrefix : string := "kube-probe/".
Definition KubeletProbeHeaderName : string := "K-Kubelet-Probe".

(** [func IsKubeletProbe(r *http.Request) bool]; the right operand of [||]
    is evaluated only when the left one is false. *)
Definition IsKubeletProbe : Go Request bool :=
  ua <- Request_Header_Get "User-Agent" ;;
  if gostrings.HasPrefix ua KubeProbeUAPrefix then ret true
  else
    kp <- Request_Header_Get KubeletProbeHeaderName ;;
    ret (negb (String.eqb kp "")).

(** [func IsKProbe(r *http.Request) bool]. *)
Definition IsKProbe : Go Request bool :=
  v <- Request_Header_Get ProbeHeaderName ;;
  ret (String.eqb v ProbeHeaderValue).

(** What the two arguments [w] and [r] of a handler refer to. *)
Record Exchange (W : Type) : Type := mkExchange {
  writer : W;
  request : Request
}.

Arguments mkExchange {W} _ _.
Arguments writer {W} _.
Arguments request {W} _.

Definition onRequest {W A : Type} (m : Go Request A) : Go (Exchange W) A :=
  fun x =>
    match m (request x) with
    | Ok (a, r') => Ok (a, mkExchange (writer x) r')
    | Panicked p => Panicked p
    end.

Definition onWriter {W A : Type} (m : Go W A) : Go (Exchange W) A :=
  fun x =>
    match m (writer x) with
    | Ok (a, w') => Ok (a, mkExchange w' (request x))
    | Panicked p => Panicked p
    end.

(** [fmt.Sprintf("a probe request must contain a non-empty %q header", name)]. *)
Definition missingHashMessage (name : string) : string :=
  "a probe request must contain a non-empty " ++ strconv.Quote name ++ " header".

(** [func ServeKProbe(w http.ResponseWriter, r *http.Request)]. *)
Definition ServeKProbe {W : Type} (rw : ResponseWriter W) : Go (Exchange W) unit :=
  hh <- onRequest (Request_Header_Get HashHeaderName) ;;
  if String.eqb hh "" then
    onWriter (http.Error rw (missingHashMessage HashHeaderName) StatusBadRequest)
  else
    onWriter (Header_Set rw HashHeaderName hh) ;;
    onWriter (WriteHeader rw StatusOK).

(** ** Vocabulary of the statements *)

(** The first value a header map holds under the exact key [name]. *)
Definition firstValue (h : Header) (name : string) : option string :=
  h !! name ≫= head.

(** A request built from a header map alone. *)
Definition requestWith (h : Header) : Request :=
  mkRequest "GET" "HTTP/1.1" "" "/" h.

(** ASCII lower-casing of a byte and of a string, and equality of header
    names up to ASCII case. *)
Definition lowerByte (c : ascii) : ascii :=
  if in_range "A" "Z" c then ascii_of_N (byte_code c + textproto.toLower) else c.

Fixpoint lowerString (s : string) : string :=
  match s with
  | EmptyString => EmptyString
  | String c s' => String (lowerByte c) (lowerString s')
  end.

Definition sameNameUpToCase (s t : string) : Prop :=
  lowerString s = lowerString t.

(** A header name made of token bytes only. *)
Fixpoint tokenName (s : string) : bool :=
  match s with
  | EmptyString => true
  | String c s' => textproto.validHeaderFieldByte c && tokenName s'
  end.

(** A header map cut down to the first value of every key. *)
Definition firstValuesOnly (h : Header) : Header := take 1 <$> h.

(** The request [r] carrying the header map [h] instead of its own. *)
Definition withHeader (r : Request) (h : Header) : Request :=
  mkRequest (Method r) (Proto r) (Host r) (RequestURI r) h.

(** The header map [http.Error] leaves behind, from the map [m] it found. *)
Definition errorHeaders (m : Header) : Header :=
  <["X-Content-Type-Options" := ["nosniff"]]>
    (<["Content-Type" := ["text/plain; charset=utf-8"]]>
       (delete "Content-Length" m)).

(** The recorder after a first [WriteHeader(code)] that found the header
    map [m], with [body] in its buffer. *)
Definition written (code : Z) (m : Header) (body : string) (flushed : bool)
  : httptest.ResponseRecorder :=
  {| httptest.Code := code; httptest.HeaderMap := m; httptest.Body := body;
     httptest.Flushed := flushed; httptest.snapHeader := Some m;
     httptest.wroteHeader := true |}.

(** The text of the error reply, spelled out byte by byte around the two
    double quotes. *)
Definition probeErrorText : string :=
  "a probe request must contain a non-empty "
  ++ String DQUOTE "K-Network-Hash" ++ String DQUOTE " header".

(** A stand-in for the content sniffing algorithm in closed examples. *)
Definition octetStream (b : string) : string := "application/octet-stream".

(** A recorder is consistent when it holds a snapshot of its headers exactly
    when it has written its header, as every recorder reached from
    [NewRecorder] through its methods does. *)
Definition recorderConsistent (w : httptest.ResponseRecorder) : Prop :=
  httptest.wroteHeader w = true <-> is_Some (httptest.snapHeader w).

(** A byte that [strconv.Quote] copies as it is, and a string of such
    bytes. *)
Definition plainByte (c : ascii) : bool :=
  strconv.IsPrintASCII c && negb (Ascii.eqb c DQUOTE) && negb (Ascii.eqb c BACKSLASH).

Fixpoint plainString (s : string) : bool :=
  match s with
  | EmptyString => true
  | String c s' => plainByte c && plainString s'
  end.

(** The line [http.Error] writes for a missing hash header. *)
Definition probeErrorLine : string := probeErrorText ++ String LF EmptyString.

(** * Properties *)

(** ** Strings *)

Lemma substring_0_0 (s : string) : String.substring 0 0 s = "".
Proof. destruct s; reflexivity. Qed.

Lemma append_String (c : ascii) (p t : string) :
  String c p ++ t = String c (p ++ t).
Proof. reflexivity. Qed.

Lemma HasPrefix_iff (s p : string) :
  gostrings.HasPrefix s p = true <-> exists t, s = p ++ t.
Proof.
  unfold gostrings.HasPrefix.
  revert s; induction p as [|c p IH]; intros s.
  - simpl. rewrite substring_0_0. simpl. split; [exists s; reflexivity | reflexivity].
  - destruct s as [|d s].
    + simpl. split; [discriminate | intros [t Ht]; discriminate].
    + specialize (IH s). cbn [String.length String.substring].
      change (S (String.length p) <=? S (String.length s))%nat
        with (String.length p <=? String.length s)%nat.
      cbn [String.eqb].
      destruct (Ascii.eqb_spec d c) as [->|Hne].
      * rewrite IH. split.
        -- intros [t ->]. exists t. reflexivity.
        -- intros [t Ht]. exists t. rewrite append_String in Ht. congruence.
      * rewrite andb_false_r. split; [discriminate|].
        intros [t Ht]. rewrite append_String in Ht. congruence.
Qed.

(** ** Header lookups *)

Lemma Get_firstValue (h : Header) (key : string) :
  textproto.Get h key
  = default "" (firstValue h (textproto.CanonicalMIMEHeaderKey key)).
Proof.
  unfold textproto.Get, firstValue.
  destruct (h !! textproto.CanonicalMIMEHeaderKey key) as [[|v vs]|]; reflexivity.
Qed.

Lemma canonical_constants :
  textproto.CanonicalMIMEHeaderKey "User-Agent" = "User-Agent"
  /\ textproto.CanonicalMIMEHeaderKey KubeletProbeHeaderName = "K-Kubelet-Probe"
  /\ textproto.CanonicalMIMEHeaderKey ProbeHeaderName = "K-Network-Probe"
  /\ textproto.CanonicalMIMEHeaderKey HashHeaderName = "K-Network-Hash".
Proof. repeat split; reflexivity. Qed.

Lemma Get_UserAgent (h : Header) :
  textproto.Get h "User-Agent" = default "" (firstValue h "User-Agent").
Proof. apply Get_firstValue. Qed.

Lemma Get_KubeletProbe (h : Header) :
  textproto.Get h KubeletProbeHeaderName
  = default "" (firstValue h "K-Kubelet-Probe").
Proof. apply Get_firstValue. Qed.

Lemma Get_Probe (h : Header) :
  textproto.Get h ProbeHeaderName = default "" (firstValue h "K-Network-Probe").
Proof. apply Get_firstValue. Qed.

Lemma Get_Hash (h : Header) :
  textproto.Get h HashHeaderName = default "" (firstValue h "K-Network-Hash").
Proof. apply Get_firstValue. Qed.

(** ** The predicates, as functions of the header values *)

Lemma IsKubeletProbe_run (r : Request) :
  IsKubeletProbe r
  = Ok (gostrings.HasPrefix (default "" (firstValue (Header_ r) "User-Agent")) "kube-probe/"
        || negb (String.eqb (default "" (firstValue (Header_ r) "K-Kubelet-Probe")) ""),
        r).
Proof.
  cbv beta iota delta [IsKubeletProbe bind Request_Header_Get gets ret].
  rewrite Get_UserAgent. change KubeProbeUAPrefix with "kube-probe/".
  destruct (gostrings.HasPrefix _ _); [reflexivity|].
  cbv beta iota. rewrite Get_KubeletProbe. reflexivity.
Qed.

Lemma IsKProbe_run (r : Request) :
  IsKProbe r
  = Ok (String.eqb (default "" (firstValue (Header_ r) "K-Network-Probe")) "probe", r).
Proof.
  cbv beta iota delta [IsKProbe bind Request_Header_Get gets ret].
  rewrite Get_Probe. reflexivity.
Qed.

(** C1. [IsKubeletProbe] returns true exactly when the first [User-Agent]
    value begins with [kube-probe/] or the first [K-Kubelet-Probe] value is
    present and not empty; it leaves the request as it was.  A request with
    no header, and one whose [K-Kubelet-Probe] value is the empty string,
    are not probes. *)
Theorem IsKubeletProbe_iff :
  (forall r : Request,
      exists b : bool,
        IsKubeletProbe r = Ok (b, r)
        /\ (b = true <->
            (exists v t, firstValue (Header_ r) "User-Agent" = Some v
                         /\ v = "kube-probe/" ++ t)
            \/ (exists v, firstValue (Header_ r) "K-Kubelet-Probe" = Some v
                          /\ v <> "")))
  /\ IsKubeletProbe (requestWith ∅) = Ok (false, requestWith ∅)
  /\ IsKubeletProbe (requestWith {[ "K-Kubelet-Probe" := [""] ]})
     = Ok (false, requestWith {[ "K-Kubelet-Probe" := [""] ]})
  /\ IsKubeletProbe (requestWith {[ "User-Agent" := ["curl/8.0"];
                                    "K-Kubelet-Probe" := [""] ]})
     = Ok (false, requestWith {[ "User-Agent" := ["curl/8.0"];
                                 "K-Kubelet-Probe" := [""] ]}).
Proof.
  split; [|repeat split; reflexivity].
  intros r. eexists. split; [apply IsKubeletProbe_run|].
  rewrite orb_true_iff, HasPrefix_iff, negb_true_iff.
  split.
  - intros [[t Ht]|Hk].
    + left. destruct (firstValue (Header_ r) "User-Agent") as [v|].
      * exists v, t. split; [reflexivity | exact Ht].
      * discriminate Ht.
    + right. destruct (firstValue (Header_ r) "K-Kubelet-Probe") as [v|].
      * exists v. split; [reflexivity|]. intros ->. discriminate Hk.
      * discriminate Hk.
  - intros [(v & t & Hv & ->)|(v & Hv & Hne)].
    + left. rewrite Hv. exists t. reflexivity.
    + right. rewrite Hv. simpl. apply String.eqb_neq. exact Hne.
Qed.

(** C2. [IsKProbe] returns true exactly when the first [K-Network-Probe]
    value is the string [probe]; the values [Probe], [probes], the empty
    string and an absent header all give false. *)
Theorem IsKProbe_iff :
  (forall r : Request,
      exists b : bool,
        IsKProbe r = Ok (b, r)
        /\ (b = true <-> firstValue (Header_ r) "K-Network-Probe" = Some "probe"))
  /\ IsKProbe (requestWith {[ "K-Network-Probe" := ["probe"] ]})
     = Ok (true, requestWith {[ "K-Network-Probe" := ["probe"] ]})
  /\ IsKProbe (requestWith {[ "K-Network-Probe" := ["Probe"] ]})
     = Ok (false, requestWith {[ "K-Network-Probe" := ["Probe"] ]})
  /\ IsKProbe (requestWith {[ "K-Network-Probe" := ["probes"] ]})
     = Ok (false, requestWith {[ "K-Network-Probe" := ["probes"] ]})
  /\ IsKProbe (requestWith {[ "K-Network-Probe" := [""] ]})
     = Ok (false, requestWith {[ "K-Network-Probe" := [""] ]})
  /\ IsKProbe (requestWith ∅) = Ok (false, requestWith ∅).
Proof.
  split; [|repeat split; reflexivity].
  intros r. eexists. split; [apply IsKProbe_run|].
  rewrite String.eqb_eq.
  destruct (firstValue (Header_ r) "K-Network-Probe") as [v|]; simpl.
  - split; congruence.
  - split; discriminate.
Qed.

(** ** The recorder *)

Lemma Recorder_WriteHeader_first (code : Z) (w : httptest.ResponseRecorder) :
  httptest.wroteHeader w = false ->
  (100 <= code <= 999)%Z ->
  httptest.Recorder_WriteHeader code w
  = Ok (tt, written code (httptest.HeaderMap w) (httptest.Body w) (httptest.Flushed w)).
Proof.
  intros Hw Hc.
  cbv beta iota delta [httptest.Recorder_WriteHeader bind gets
                       httptest.checkWriteHeaderCode].
  rewrite Hw.
  replace ((code <? 100)%Z || (code >? 999)%Z) with false by lia.
  reflexivity.
Qed.

Lemma Recorder_WriteHeader_again (code : Z) (w : httptest.ResponseRecorder) :
  httptest.wroteHeader w = true ->
  httptest.Recorder_WriteHeader code w = Ok (tt, w).
Proof.
  intros Hw.
  cbv beta iota delta [httptest.Recorder_WriteHeader bind gets].
  rewrite Hw. reflexivity.
Qed.

Section Serve.

Variable sniff : string -> string.

Lemma Recorder_Write_after (buf : string) (w : httptest.ResponseRecorder) :
  httptest.wroteHeader w = true ->
  httptest.Recorder_Write sniff buf w
  = Ok (Z.of_nat (String.length buf),
        {| httptest.Code := httptest.Code w;
           httptest.HeaderMap := httptest.HeaderMap w;
           httptest.Body := httptest.Body w ++ buf;
           httptest.Flushed := httptest.Flushed w;
           httptest.snapHeader := httptest.snapHeader w;
           httptest.wroteHeader := true |}).
Proof.
  intros Hw. destruct w as [c0 m body fl snap wrote]. simpl in Hw. subst wrote.
  reflexivity.
Qed.

(** [http.Error] on a recorder that has not written its header yet. *)
Lemma Error_first (msg : string) (code : Z) (w : httptest.ResponseRecorder) :
  httptest.wroteHeader w = false ->
  (100 <= code <= 999)%Z ->
  http.Error (httptest.Recorder sniff) msg code w
  = Ok (tt, written code (errorHeaders (httptest.HeaderMap w))
              (httptest.Body w ++ (msg ++ String LF EmptyString))
              (httptest.Flushed w)).
Proof.
  intros Hw Hc. destruct w as [c0 m body fl snap wrote]. simpl in Hw. subst wrote.
  cbv beta iota delta [http.Error http.Header_Del http.Header_Set http.Fprintln
                       bind modify ret httptest.Recorder
                       http.Header_of http.Header_put http.Write http.WriteHeader
                       httptest.set_HeaderMap httptest.HeaderMap httptest.Code
                       httptest.Body httptest.Flushed httptest.snapHeader
                       httptest.wroteHeader].
  rewrite Recorder_WriteHeader_first by (simpl; auto).
  cbv beta iota. rewrite Recorder_Write_after by reflexivity.
  reflexivity.
Qed.

(** [http.Error] on a recorder whose header is already written: the status
    stays, the text is appended. *)
Lemma Error_again (msg : string) (code : Z) (w : httptest.ResponseRecorder) :
  httptest.wroteHeader w = true ->
  http.Error (httptest.Recorder sniff) msg code w
  = Ok (tt,
        {| httptest.Code := httptest.Code w;
           httptest.HeaderMap := errorHeaders (httptest.HeaderMap w);
           httptest.Body := httptest.Body w ++ (msg ++ String LF EmptyString);
           httptest.Flushed := httptest.Flushed w;
           httptest.snapHeader := httptest.snapHeader w;
           httptest.wroteHeader := true |}).
Proof.
  intros Hw. destruct w as [c0 m body fl snap wrote]. simpl in Hw. subst wrote.
  cbv beta iota delta [http.Error http.Header_Del http.Header_Set http.Fprintln
                       bind modify ret httptest.Recorder
                       http.Header_of http.Header_put http.Write http.WriteHeader
                       httptest.set_HeaderMap httptest.HeaderMap httptest.Code
                       httptest.Body httptest.Flushed httptest.snapHeader
                       httptest.wroteHeader].
  rewrite Recorder_WriteHeader_again by reflexivity.
  cbv beta iota. rewrite Recorder_Write_after by reflexivity.
  reflexivity.
Qed.

(** The two paths of [ServeKProbe] on a recorder that has not written its
    header yet. *)
Lemma ServeKProbe_missing (w : httptest.ResponseRecorder) (r : Request) :
  httptest.wroteHeader w = false ->
  default "" (firstValue (Header_ r) "K-Network-Hash") = "" ->
  ServeKProbe (httptest.Recorder sniff) (mkExchange w r)
  = Ok (tt, mkExchange
              (written 400 (errorHeaders (httptest.HeaderMap w))
                 (httptest.Body w
                  ++ (missingHashMessage "K-Network-Hash" ++ String LF EmptyString))
                 (httptest.Flushed w))
              r).
Proof.
  intros Hw Hh.
  cbv beta iota delta [ServeKProbe bind onRequest onWriter Request_Header_Get gets
                       request writer].
  rewrite Get_Hash, Hh. cbv beta iota.
  change (String.eqb "" "") with true. cbv beta iota.
  rewrite Error_first by (unfold StatusBadRequest; auto; lia).
  reflexivity.
Qed.

Lemma ServeKProbe_echo (w : httptest.ResponseRecorder) (r : Request) (hh : string) :
  httptest.wroteHeader w = false ->
  firstValue (Header_ r) "K-Network-Hash" = Some hh ->
  hh <> "" ->
  ServeKProbe (httptest.Recorder sniff) (mkExchange w r)
  = Ok (tt, mkExchange
              (written 200 (<["K-Network-Hash" := [hh]]> (httptest.HeaderMap w))
                 (httptest.Body w) (httptest.Flushed w))
              r).
Proof.
  intros Hw Hh Hne.
  cbv beta iota delta [ServeKProbe bind onRequest onWriter Request_Header_Get gets
                       request writer].
  rewrite Get_Hash, Hh. change (default "" (Some hh)) with hh.
  apply String.eqb_neq in Hne. cbv beta iota. rewrite Hne. cbv beta iota.
  destruct w as [c0 m body fl snap wrote]. simpl in Hw. subst wrote.
  reflexivity.
Qed.

(** [ServeKProbe] never panics and never touches the request; what it does
    to the writer depends on the request through the first
    [K-Network-Hash] value only. *)
Lemma ServeKProbe_by_hash (w : httptest.ResponseRecorder) (r1 r2 : Request) :
  firstValue (Header_ r1) "K-Network-Hash" = firstValue (Header_ r2) "K-Network-Hash" ->
  exists w',
    ServeKProbe (httptest.Recorder sniff) (mkExchange w r1) = Ok (tt, mkExchange w' r1)
    /\ ServeKProbe (httptest.Recorder sniff) (mkExchange w r2) = Ok (tt, mkExchange w' r2).
Proof.
  intros Heq.
  cbv beta iota delta [ServeKProbe bind onRequest onWriter Request_Header_Get gets
                       request writer].
  rewrite !Get_Hash, Heq.
  destruct (String.eqb (default "" (firstValue (Header_ r2) "K-Network-Hash")) "").
  - destruct (httptest.wroteHeader w) eqn:Hw.
    + rewrite Error_again by exact Hw. eexists. split; reflexivity.
    + rewrite Error_first by (unfold StatusBadRequest; auto; lia).
      eexists. split; reflexivity.
  - destruct w as [c0 m body fl snap [|]]; eexists; split; reflexivity.
Qed.

Lemma ServeKProbe_total (w : httptest.ResponseRecorder) (r : Request) :
  exists w',
    ServeKProbe (httptest.Recorder sniff) (mkExchange w r) = Ok (tt, mkExchange w' r).
Proof.
  destruct (ServeKProbe_by_hash w r r eq_refl) as (w' & H & _).
  exists w'. exact H.
Qed.

End Serve.

Lemma no_value_iff (o : option string) :
  default "" o = "" <-> o = None \/ o = Some "".
Proof.
  destruct o as [v|]; simpl.
  - split; [intros ->; right; reflexivity | intros [H|H]; congruence].
  - split; [left; reflexivity | reflexivity].
Qed.

Lemma missingHashMessage_text : missingHashMessage HashHeaderName = probeErrorText.
Proof. reflexivity. Qed.

(** ** The responder *)

(** C3. When the first [K-Network-Hash] value [h] of the request is not
    empty, [ServeKProbe] on a writer that has not sent its header sets the
    response header [K-Network-Hash] to [h] alone, sends status 200 with that
    header map and writes nothing to the body; on a fresh recorder the body
    is empty. *)
Theorem ServeKProbe_echoes_hash
    (sniff : string -> string) (w : httptest.ResponseRecorder) (r : Request)
    (h : string) :
  httptest.wroteHeader w = false ->
  firstValue (Header_ r) "K-Network-Hash" = Some h ->
  h <> "" ->
  exists w',
    ServeKProbe (httptest.Recorder sniff) (mkExchange w r) = Ok (tt, mkExchange w' r)
    /\ httptest.Code w' = 200%Z
    /\ httptest.wroteHeader w' = true
    /\ httptest.HeaderMap w' = <["K-Network-Hash" := [h]]> (httptest.HeaderMap w)
    /\ httptest.snapHeader w' = Some (httptest.HeaderMap w')
    /\ httptest.Body w' = httptest.Body w
    /\ (w = httptest.NewRecorder ->
        w' = written 200 {[ "K-Network-Hash" := [h] ]} "" false).
Proof.
  intros Hw Hh Hne. eexists. split; [apply ServeKProbe_echo; eassumption|].
  repeat split. intros ->. simpl. rewrite insert_empty. reflexivity.
Qed.

Lemma ServeKProbe_echoes_hash_witness :
  httptest.wroteHeader httptest.NewRecorder = false
  /\ firstValue (Header_ (requestWith {[ "K-Network-Hash" := ["abc123"] ]}))
       "K-Network-Hash" = Some "abc123"
  /\ "abc123" <> ""
  /\ exists w',
       ServeKProbe (httptest.Recorder octetStream)
         (mkExchange httptest.NewRecorder
            (requestWith {[ "K-Network-Hash" := ["abc123"] ]}))
       = Ok (tt, mkExchange w' (requestWith {[ "K-Network-Hash" := ["abc123"] ]}))
       /\ httptest.Code w' = 200%Z
       /\ httptest.wroteHeader w' = true
       /\ httptest.HeaderMap w'
          = <["K-Network-Hash" := ["abc123"]]> (httptest.HeaderMap httptest.NewRecorder)
       /\ httptest.snapHeader w' = Some (httptest.HeaderMap w')
       /\ httptest.Body w' = httptest.Body httptest.NewRecorder
       /\ (httptest.NewRecorder = httptest.NewRecorder ->
           w' = written 200 {[ "K-Network-Hash" := ["abc123"] ]} "" false).
Proof.
  split; [reflexivity|]. split; [reflexivity|]. split; [discriminate|].
  apply (ServeKProbe_echoes_hash octetStream httptest.NewRecorder
           (requestWith {[ "K-Network-Hash" := ["abc123"] ]}) "abc123");
    [reflexivity | reflexivity | discriminate].
Defined.

Lemma errorHeaders_lookup (m : Header) :
  errorHeaders m !! "Content-Type" = Some ["text/plain; charset=utf-8"]
  /\ errorHeaders m !! "X-Content-Type-Options" = Some ["nosniff"]
  /\ errorHeaders m !! "K-Network-Hash" = m !! "K-Network-Hash".
Proof.
  unfold errorHeaders. repeat split.
  - rewrite lookup_insert_ne by discriminate. apply lookup_insert_eq.
  - apply lookup_insert_eq.
  - rewrite !lookup_insert_ne by discriminate. apply lookup_delete_ne. discriminate.
Qed.

(** C4, in the form that holds.  When the request has no [K-Network-Hash]
    value or an empty one, [ServeKProbe] on a writer that has not sent its header
    replies through [http.Error]: status 400, content type
    [text/plain; charset=utf-8], and a body made of the message naming the
    header followed by one line feed.  The hash header of the response is
    left as it was and the request is untouched. *)
Theorem ServeKProbe_missing_hash
    (sniff : string -> string) (w : httptest.ResponseRecorder) (r : Request) :
  httptest.wroteHeader w = false ->
  firstValue (Header_ r) "K-Network-Hash" = None
  \/ firstValue (Header_ r) "K-Network-Hash" = Some "" ->
  exists w',
    ServeKProbe (httptest.Recorder sniff) (mkExchange w r) = Ok (tt, mkExchange w' r)
    /\ httptest.Code w' = 400%Z
    /\ httptest.wroteHeader w' = true
    /\ httptest.Body w' = httptest.Body w ++ (probeErrorText ++ String LF EmptyString)
    /\ httptest.HeaderMap w' !! "Content-Type" = Some ["text/plain; charset=utf-8"]
    /\ httptest.HeaderMap w' !! "X-Content-Type-Options" = Some ["nosniff"]
    /\ httptest.HeaderMap w' !! "K-Network-Hash" = httptest.HeaderMap w !! "K-Network-Hash"
    /\ httptest.snapHeader w' = Some (httptest.HeaderMap w')
    /\ (w = httptest.NewRecorder ->
        w' = written 400
               {[ "Content-Type" := ["text/plain; charset=utf-8"];
                  "X-Content-Type-Options" := ["nosniff"] ]}
               (probeErrorText ++ String LF EmptyString) false).
Proof.
  intros Hw Hh. apply no_value_iff in Hh.
  eexists. split; [apply ServeKProbe_missing; assumption|].
  destruct (errorHeaders_lookup (httptest.HeaderMap w)) as (Hct & Hno & Hk).
  repeat split; try assumption.
  intros ->. reflexivity.
Qed.

Lemma ServeKProbe_missing_hash_witness :
  httptest.wroteHeader httptest.NewRecorder = false
  /\ (firstValue (Header_ (requestWith {[ "K-Network-Hash" := [""] ]})) "K-Network-Hash"
      = None
      \/ firstValue (Header_ (requestWith {[ "K-Network-Hash" := [""] ]})) "K-Network-Hash"
         = Some "")
  /\ exists w',
       ServeKProbe (httptest.Recorder octetStream)
         (mkExchange httptest.NewRecorder (requestWith {[ "K-Network-Hash" := [""] ]}))
       = Ok (tt, mkExchange w' (requestWith {[ "K-Network-Hash" := [""] ]}))
       /\ httptest.Code w' = 400%Z
       /\ httptest.wroteHeader w' = true
       /\ httptest.Body w'
          = httptest.Body httptest.NewRecorder
            ++ (probeErrorText ++ String LF EmptyString)
       /\ httptest.HeaderMap w' !! "Content-Type" = Some ["text/plain; charset=utf-8"]
       /\ httptest.HeaderMap w' !! "X-Content-Type-Options" = Some ["nosniff"]
       /\ httptest.HeaderMap w' !! "K-Network-Hash"
          = httptest.HeaderMap httptest.NewRecorder !! "K-Network-Hash"
       /\ httptest.snapHeader w' = Some (httptest.HeaderMap w')
       /\ (httptest.NewRecorder = httptest.NewRecorder ->
           w' = written 400
                  {[ "Content-Type" := ["text/plain; charset=utf-8"];
                     "X-Content-Type-Options" := ["nosniff"] ]}
                  (probeErrorText ++ String LF EmptyString) false).
Proof.
  split; [reflexivity|]. split; [right; reflexivity|].
  apply (ServeKProbe_missing_hash octetStream httptest.NewRecorder
           (requestWith {[ "K-Network-Hash" := [""] ]}));
    [reflexivity | right; reflexivity].
Defined.

(** C4 with the body equal to the bare message does not hold: on a request
    with no header at all the body of the 400 reply is one byte longer than
    the message, the line feed [fmt.Fprintln] appends. *)
Lemma ServeKProbe_body_is_not_bare_message :
  firstValue (Header_ (requestWith ∅)) "K-Network-Hash" = None
  /\ exists w',
       ServeKProbe (httptest.Recorder octetStream)
         (mkExchange httptest.NewRecorder (requestWith ∅))
       = Ok (tt, mkExchange w' (requestWith ∅))
       /\ httptest.Code w' = 400%Z
       /\ String.length (httptest.Body w') = S (String.length probeErrorText)
       /\ httptest.Body w' <> probeErrorText.
Proof.
  split; [reflexivity|]. eexists. split; [reflexivity|].
  split; [reflexivity|]. split; [reflexivity|]. discriminate.
Qed.

(** C5. The package constants have their literal values: 200 milliseconds
    and 45 seconds as nanosecond counts within [int64], and the five header
    names and values byte for byte; each header name is its own canonical
    MIME form, so it is the key looked up and set. *)
Theorem constants_have_literal_values :
  DefaultConnTimeout = (200 * time.Millisecond)%Z
  /\ DefaultConnTimeout = 200000000%Z
  /\ DefaultDrainTimeout = (45 * time.Second)%Z
  /\ DefaultDrainTimeout = 45000000000%Z
  /\ (time.minInt64 <= DefaultConnTimeout <= time.maxInt64)%Z
  /\ (time.minInt64 <= DefaultDrainTimeout <= time.maxInt64)%Z
  /\ UserAgentKey = "User-Agent"
  /\ ProbeHeaderName = "K-Network-Probe"
  /\ ProbeHeaderValue = "probe"
  /\ HashHeaderName = "K-Network-Hash"
  /\ KubeProbeUAPrefix = "kube-probe/"
  /\ KubeletProbeHeaderName = "K-Kubelet-Probe"
  /\ textproto.CanonicalMIMEHeaderKey UserAgentKey = "User-Agent"
  /\ textproto.CanonicalMIMEHeaderKey ProbeHeaderName = "K-Network-Probe"
  /\ textproto.CanonicalMIMEHeaderKey HashHeaderName = "K-Network-Hash"
  /\ textproto.CanonicalMIMEHeaderKey KubeletProbeHeaderName = "K-Kubelet-Probe".
Proof.
  repeat split; try reflexivity; vm_compute; discriminate.
Qed.

(** C6. [ServeKProbe] never panics, whatever the state of the recorder.  On
    a recorder that has not sent its header, the status it sends is 400
    exactly when the request has no [K-Network-Hash] value or an empty one,
    and is 200 otherwise; on the 400 path the [K-Network-Hash] header of the
    response, live and as sent, is what it was before the call. *)
Theorem ServeKProbe_error_iff_missing (sniff : string -> string) :
  (forall (w : httptest.ResponseRecorder) (r : Request),
      exists w',
        ServeKProbe (httptest.Recorder sniff) (mkExchange w r)
        = Ok (tt, mkExchange w' r))
  /\ (forall (w w' : httptest.ResponseRecorder) (r : Request) (u : unit) (r' : Request),
         httptest.wroteHeader w = false ->
         ServeKProbe (httptest.Recorder sniff) (mkExchange w r)
         = Ok (u, mkExchange w' r') ->
         (httptest.Code w' = 400%Z <->
          firstValue (Header_ r) "K-Network-Hash" = None
          \/ firstValue (Header_ r) "K-Network-Hash" = Some "")
         /\ (httptest.Code w' = 400%Z \/ httptest.Code w' = 200%Z)
         /\ (httptest.Code w' = 400%Z ->
             httptest.HeaderMap w' !! "K-Network-Hash"
             = httptest.HeaderMap w !! "K-Network-Hash"
             /\ httptest.snapHeader w' = Some (httptest.HeaderMap w'))).
Proof.
  split; [intros w r; apply ServeKProbe_total|].
  intros w w' r u r' Hw Hrun.
  destruct (firstValue (Header_ r) "K-Network-Hash") as [hh|] eqn:Hh.
  - destruct (String.eqb_spec hh "") as [->|Hne].
    + rewrite (ServeKProbe_missing sniff w r Hw) in Hrun by (rewrite Hh; reflexivity).
      injection Hrun as _ <- <-. split; [|split].
      * split; [intros _; right; reflexivity | reflexivity].
      * left; reflexivity.
      * intros _. split; [apply errorHeaders_lookup | reflexivity].
    + rewrite (ServeKProbe_echo sniff w r hh Hw Hh Hne) in Hrun.
      injection Hrun as _ <- <-. split; [|split].
      * split; [discriminate | intros [H|H]; congruence].
      * right; reflexivity.
      * discriminate.
  - rewrite (ServeKProbe_missing sniff w r Hw) in Hrun by (rewrite Hh; reflexivity).
    injection Hrun as _ <- <-. split; [|split].
    + split; [intros _; left; reflexivity | reflexivity].
    + left; reflexivity.
    + intros _. split; [apply errorHeaders_lookup | reflexivity].
Qed.

(** C7. [ServeKProbe] is a function of the request's headers: two requests
    with the same header map, whatever else differs between them, served on
    two fresh recorders give the same recorder state (status, headers, body),
    whatever the sniffing algorithm of the recorders, and each request is
    left as it was. *)
Theorem ServeKProbe_same_headers_same_outcome
    (sniff1 sniff2 : string -> string) (r1 r2 : Request) :
  Header_ r1 = Header_ r2 ->
  exists w',
    ServeKProbe (httptest.Recorder sniff1) (mkExchange httptest.NewRecorder r1)
    = Ok (tt, mkExchange w' r1)
    /\ ServeKProbe (httptest.Recorder sniff2) (mkExchange httptest.NewRecorder r2)
       = Ok (tt, mkExchange w' r2).
Proof.
  intros Heq.
  destruct (firstValue (Header_ r2) "K-Network-Hash") as [hh|] eqn:Hh.
  - destruct (String.eqb_spec hh "") as [->|Hne].
    + eexists. split; apply ServeKProbe_missing; try reflexivity.
      * rewrite Heq, Hh. reflexivity.
      * rewrite Hh. reflexivity.
    + eexists. split; apply (ServeKProbe_echo _ _ _ hh); try reflexivity;
        try assumption.
      rewrite Heq. exact Hh.
  - eexists. split; apply ServeKProbe_missing; try reflexivity.
    + rewrite Heq, Hh. reflexivity.
    + rewrite Hh. reflexivity.
Qed.

Lemma ServeKProbe_same_headers_same_outcome_witness :
  Header_ (mkRequest "GET" "HTTP/1.1" "a.example" "/healthz"
             {[ "K-Network-Hash" := ["rev-42"] ]})
  = Header_ (mkRequest "HEAD" "HTTP/2.0" "b.example" "/"
               {[ "K-Network-Hash" := ["rev-42"] ]})
  /\ exists w',
       ServeKProbe (httptest.Recorder octetStream)
         (mkExchange httptest.NewRecorder
            (mkRequest "GET" "HTTP/1.1" "a.example" "/healthz"
               {[ "K-Network-Hash" := ["rev-42"] ]}))
       = Ok (tt, mkExchange w'
                   (mkRequest "GET" "HTTP/1.1" "a.example" "/healthz"
                      {[ "K-Network-Hash" := ["rev-42"] ]}))
       /\ ServeKProbe (httptest.Recorder (fun b => b))
            (mkExchange httptest.NewRecorder
               (mkRequest "HEAD" "HTTP/2.0" "b.example" "/"
                  {[ "K-Network-Hash" := ["rev-42"] ]}))
          = Ok (tt, mkExchange w'
                      (mkRequest "HEAD" "HTTP/2.0" "b.example" "/"
                         {[ "K-Network-Hash" := ["rev-42"] ]})).
Proof.
  split; [reflexivity|].
  apply (ServeKProbe_same_headers_same_outcome octetStream (fun b => b)
           (mkRequest "GET" "HTTP/1.1" "a.example" "/healthz"
              {[ "K-Network-Hash" := ["rev-42"] ]})
           (mkRequest "HEAD" "HTTP/2.0" "b.example" "/"
              {[ "K-Network-Hash" := ["rev-42"] ]})).
  reflexivity.
Defined.

(** ** Totality and purity of the predicates *)

Lemma Get_absent (h : Header) (key : string) :
  h !! textproto.CanonicalMIMEHeaderKey key = None -> textproto.Get h key = "".
Proof. intros H. unfold textproto.Get. rewrite H. reflexivity. Qed.

Lemma firstValue_absent (h : Header) (name : string) :
  h !! name = None -> firstValue h name = None.
Proof. intros H. unfold firstValue. rewrite H. reflexivity. Qed.

(** C8. [IsKubeletProbe] and [IsKProbe] return a boolean on every request,
    never panic and hand the request back as they found it.  A header that is
    absent reads as the empty string, exactly as one present with the empty
    string does, and a request lacking the headers is classified false. *)
Theorem probes_total_and_read_only :
  (forall r : Request,
      exists b1 b2 : bool,
        IsKubeletProbe r = Ok (b1, r) /\ IsKProbe r = Ok (b2, r))
  /\ (forall (r : Request) (key : string),
         Header_ r !! textproto.CanonicalMIMEHeaderKey key = None ->
         Request_Header_Get key r = Ok ("", r)
         /\ textproto.Get (Header_ r) key
            = textproto.Get
                (<[textproto.CanonicalMIMEHeaderKey key := [""]]> (Header_ r)) key)
  /\ (forall r : Request,
         Header_ r !! "User-Agent" = None ->
         Header_ r !! "K-Kubelet-Probe" = None ->
         IsKubeletProbe r = Ok (false, r))
  /\ (forall r : Request,
         Header_ r !! "K-Network-Probe" = None ->
         IsKProbe r = Ok (false, r)).
Proof.
  split; [|split; [|split]].
  - intros r. do 2 eexists. split; [apply IsKubeletProbe_run | apply IsKProbe_run].
  - intros r key H. split.
    + unfold Request_Header_Get, gets. rewrite (Get_absent _ _ H). reflexivity.
    + rewrite (Get_absent _ _ H). unfold textproto.Get.
      rewrite lookup_insert_eq. reflexivity.
  - intros r Hua Hkp. rewrite IsKubeletProbe_run.
    rewrite (firstValue_absent _ _ Hua), (firstValue_absent _ _ Hkp). reflexivity.
  - intros r Hp. rewrite IsKProbe_run.
    rewrite (firstValue_absent _ _ Hp). reflexivity.
Qed.

(** ** Headers with several values *)

Lemma firstValue_firstValuesOnly (h : Header) (name : string) :
  firstValue (firstValuesOnly h) name = firstValue h name.
Proof.
  unfold firstValue, firstValuesOnly. rewrite lookup_fmap.
  destruct (h !! name) as [[|v vs]|]; reflexivity.
Qed.

(** C9. Every lookup reads the first value of a header only.  A lookup
    returns the head of the value list; the two predicates and [ServeKProbe]
    give the same results on a request and on that request with every header
    cut down to its first value; [probe] followed by [x] is a routing probe,
    [x] followed by [probe] is not; and of two [K-Network-Hash] values the
    first alone is echoed. *)
Theorem lookups_read_first_value_only (sniff : string -> string) :
  (forall (r : Request) (key v : string) (vs : list string),
      Header_ r !! textproto.CanonicalMIMEHeaderKey key = Some (v :: vs) ->
      Request_Header_Get key r = Ok (v, r))
  /\ (forall r : Request,
         exists b1 b2 : bool,
           IsKubeletProbe r = Ok (b1, r)
           /\ IsKubeletProbe (withHeader r (firstValuesOnly (Header_ r)))
              = Ok (b1, withHeader r (firstValuesOnly (Header_ r)))
           /\ IsKProbe r = Ok (b2, r)
           /\ IsKProbe (withHeader r (firstValuesOnly (Header_ r)))
              = Ok (b2, withHeader r (firstValuesOnly (Header_ r))))
  /\ (forall (w : httptest.ResponseRecorder) (r : Request),
         exists w',
           ServeKProbe (httptest.Recorder sniff) (mkExchange w r)
           = Ok (tt, mkExchange w' r)
           /\ ServeKProbe (httptest.Recorder sniff)
                (mkExchange w (withHeader r (firstValuesOnly (Header_ r))))
              = Ok (tt, mkExchange w' (withHeader r (firstValuesOnly (Header_ r)))))
  /\ IsKProbe (requestWith {[ "K-Network-Probe" := ["probe"; "x"] ]})
     = Ok (true, requestWith {[ "K-Network-Probe" := ["probe"; "x"] ]})
  /\ IsKProbe (requestWith {[ "K-Network-Probe" := ["x"; "probe"] ]})
     = Ok (false, requestWith {[ "K-Network-Probe" := ["x"; "probe"] ]})
  /\ IsKubeletProbe (requestWith {[ "User-Agent" := ["curl/8.0"; "kube-probe/1.27"] ]})
     = Ok (false, requestWith {[ "User-Agent" := ["curl/8.0"; "kube-probe/1.27"] ]})
  /\ IsKubeletProbe (requestWith {[ "K-Kubelet-Probe" := [""; "yes"] ]})
     = Ok (false, requestWith {[ "K-Kubelet-Probe" := [""; "yes"] ]})
  /\ ServeKProbe (httptest.Recorder sniff)
       (mkExchange httptest.NewRecorder
          (requestWith {[ "K-Network-Hash" := ["rev-42"; "rev-43"] ]}))
     = Ok (tt, mkExchange
                 (written 200 {[ "K-Network-Hash" := ["rev-42"] ]} "" false)
                 (requestWith {[ "K-Network-Hash" := ["rev-42"; "rev-43"] ]})).
Proof.
  split; [|split; [|split; [|repeat split; reflexivity]]].
  - intros r key v vs H. unfold Request_Header_Get, gets, textproto.Get.
    rewrite H. reflexivity.
  - intros r. do 2 eexists.
    split; [apply IsKubeletProbe_run|].
    split; [rewrite IsKubeletProbe_run; cbn [Header_ withHeader];
            rewrite !firstValue_firstValuesOnly; reflexivity|].
    split; [apply IsKProbe_run|].
    rewrite IsKProbe_run; cbn [Header_ withHeader].
    rewrite firstValue_firstValuesOnly. reflexivity.
  - intros w r. apply ServeKProbe_by_hash. cbn [Header_ withHeader].
    symmetry. apply firstValue_firstValuesOnly.
Qed.

(** ** Two scenarios *)

Example kube_probe_user_agent :
  IsKubeletProbe (requestWith {[ "User-Agent" := ["kube-probe/1.27"] ]})
  = Ok (true, requestWith {[ "User-Agent" := ["kube-probe/1.27"] ]})
  /\ IsKProbe (requestWith {[ "User-Agent" := ["kube-probe/1.27"] ]})
     = Ok (false, requestWith {[ "User-Agent" := ["kube-probe/1.27"] ]}).
Proof. split; reflexivity. Qed.

Example routing_probe_with_hash :
  let r := requestWith {[ "K-Network-Probe" := ["probe"];
                          "K-Network-Hash" := ["rev-42"] ]} in
  IsKProbe r = Ok (true, r)
  /\ ServeKProbe (httptest.Recorder octetStream) (mkExchange httptest.NewRecorder r)
     = Ok (tt, mkExchange (written 200 {[ "K-Network-Hash" := ["rev-42"] ]} "" false) r).
Proof. split; reflexivity. Qed.

(** ** Canonical header keys *)

Ltac each_byte c := destruct c as [[] [] [] [] [] [] [] []].

Lemma canonByte_lowerByte (upper : bool) (c : ascii) :
  textproto.canonByte upper (lowerByte c) = textproto.canonByte upper c.
Proof. each_byte c; destruct upper; reflexivity. Qed.

Lemma validHeaderFieldByte_lowerByte (c : ascii) :
  textproto.validHeaderFieldByte (lowerByte c) = textproto.validHeaderFieldByte c.
Proof. each_byte c; reflexivity. Qed.

Lemma canonLoop_lowerString (upper : bool) (s : string) :
  textproto.canonLoop upper (lowerString s) = textproto.canonLoop upper s.
Proof.
  revert upper; induction s as [|c s IH]; intros upper; [reflexivity|].
  cbn [lowerString textproto.canonLoop].
  rewrite canonByte_lowerByte, IH. reflexivity.
Qed.

Lemma tokenName_lowerString (s : string) : tokenName (lowerString s) = tokenName s.
Proof.
  induction s as [|c s IH]; [reflexivity|].
  cbn [lowerString tokenName]. rewrite validHeaderFieldByte_lowerByte, IH. reflexivity.
Qed.

Lemma scanKey_tokenName (noCanon : bool) (s : string) :
  tokenName s = true -> textproto.scanKey noCanon s = Some noCanon.
Proof.
  induction s as [|c s IH]; [reflexivity|].
  cbn [tokenName textproto.scanKey]. intros [Hc Hs]%andb_true_iff.
  rewrite Hc. apply IH, Hs.
Qed.

Lemma canonLoop_fixed (upper : bool) (s : string) :
  tokenName s = true ->
  textproto.needsRewrite upper s = false ->
  textproto.canonLoop upper s = s.
Proof.
  revert upper; induction s as [|c s IH]; intros upper; [reflexivity|].
  cbn [tokenName textproto.needsRewrite textproto.canonLoop].
  intros [Hc Hs]%andb_true_iff. rewrite Hc. cbn [negb].
  unfold textproto.canonByte.
  destruct (upper && in_range "a" "z" c); [discriminate|].
  destruct (negb upper && in_range "A" "Z" c); [discriminate|].
  intros Hn. rewrite (IH _ Hs Hn). reflexivity.
Qed.

(** On a name made of token bytes, the canonical key is the result of the
    rewriting loop, whether or not the quick check asks for it. *)
Lemma CanonicalMIMEHeaderKey_token (s : string) :
  tokenName s = true ->
  textproto.CanonicalMIMEHeaderKey s = textproto.canonLoop true s.
Proof.
  intros Hs. unfold textproto.CanonicalMIMEHeaderKey.
  destruct (textproto.needsRewrite true s) eqn:Hn.
  - unfold textproto.canonicalMIMEHeaderKey.
    rewrite (scanKey_tokenName false s Hs). reflexivity.
  - symmetry. apply canonLoop_fixed; assumption.
Qed.

Lemma CanonicalMIMEHeaderKey_up_to_case (s t : string) :
  tokenName s = true ->
  sameNameUpToCase s t ->
  textproto.CanonicalMIMEHeaderKey s = textproto.CanonicalMIMEHeaderKey t.
Proof.
  unfold sameNameUpToCase. intros Hs Hst.
  assert (Ht : tokenName t = true).
  { rewrite <- tokenName_lowerString, <- Hst, tokenName_lowerString. exact Hs. }
  rewrite !CanonicalMIMEHeaderKey_token by assumption.
  rewrite <- (canonLoop_lowerString true s), Hst. apply canonLoop_lowerString.
Qed.

(** C10. Header names are matched up to ASCII case in all three operations,
    values are not.  Two spellings of a token name that differ in case only
    have the same canonical key, so [Get] reads and [Set] writes the same
    entry under either, and the lookups of the three operations find a header
    set under any spelling of its name: [IsKProbe] answers by the value set
    for [K-Network-Probe], [IsKubeletProbe] by the value set for
    [User-Agent] or for [K-Kubelet-Probe], and [ServeKProbe] echoes or
    refuses by the value set for [K-Network-Hash], storing it under the
    canonical name, where [Get] under any spelling finds it.  A key stored in
    the map in a form that is not canonical is not found by any of the
    three, and a value differing in case from the expected one is not
    accepted. *)
Theorem header_names_match_up_to_case :
  (forall (s t : string),
      tokenName s = true ->
      sameNameUpToCase s t ->
      textproto.CanonicalMIMEHeaderKey s = textproto.CanonicalMIMEHeaderKey t
      /\ (forall h : Header, textproto.Get h s = textproto.Get h t)
      /\ (forall (h : Header) (v : string), textproto.Set_ h s v = textproto.Set_ h t v))
  /\ (forall (r : Request) (t : string),
         (sameNameUpToCase UserAgentKey t ->
          Request_Header_Get t r = Request_Header_Get UserAgentKey r)
         /\ (sameNameUpToCase KubeletProbeHeaderName t ->
             Request_Header_Get t r = Request_Header_Get KubeletProbeHeaderName r)
         /\ (sameNameUpToCase ProbeHeaderName t ->
             Request_Header_Get t r = Request_Header_Get ProbeHeaderName r)
         /\ (sameNameUpToCase HashHeaderName t ->
             Request_Header_Get t r = Request_Header_Get HashHeaderName r))
  /\ (forall (h : Header) (t v : string),
         sameNameUpToCase ProbeHeaderName t ->
         IsKProbe (requestWith (textproto.Set_ h t v))
         = Ok (String.eqb v "probe", requestWith (textproto.Set_ h t v)))
  /\ textproto.CanonicalMIMEHeaderKey "k-network-probe" = "K-Network-Probe"
  /\ textproto.CanonicalMIMEHeaderKey "K-NETWORK-PROBE" = "K-Network-Probe"
  /\ Request_Header_Get "k-network-probe"
       (requestWith {[ "K-Network-Probe" := ["probe"] ]})
     = Ok ("probe", requestWith {[ "K-Network-Probe" := ["probe"] ]})
  /\ Request_Header_Get "K-NETWORK-PROBE"
       (requestWith {[ "K-Network-Probe" := ["probe"] ]})
     = Ok ("probe", requestWith {[ "K-Network-Probe" := ["probe"] ]})
  /\ textproto.CanonicalMIMEHeaderKey "k-NETWORK-hash" = "K-Network-Hash"
  /\ textproto.CanonicalMIMEHeaderKey "user-agent" = "User-Agent"
  /\ textproto.CanonicalMIMEHeaderKey "K-KUBELET-PROBE" = "K-Kubelet-Probe"
  /\ IsKProbe (requestWith {[ "k-network-probe" := ["probe"] ]})
     = Ok (false, requestWith {[ "k-network-probe" := ["probe"] ]})
  /\ IsKProbe (requestWith {[ "K-Network-Probe" := ["PROBE"] ]})
     = Ok (false, requestWith {[ "K-Network-Probe" := ["PROBE"] ]})
  /\ IsKubeletProbe (requestWith {[ "User-Agent" := ["Kube-Probe/1.27"] ]})
     = Ok (false, requestWith {[ "User-Agent" := ["Kube-Probe/1.27"] ]})
  /\ (forall (h : Header) (t v : string),
         sameNameUpToCase UserAgentKey t ->
         IsKubeletProbe (requestWith (textproto.Set_ h t v))
         = Ok (gostrings.HasPrefix v "kube-probe/"
               || negb (String.eqb (default "" (firstValue h "K-Kubelet-Probe")) ""),
               requestWith (textproto.Set_ h t v)))
  /\ (forall (h : Header) (t v : string),
         sameNameUpToCase KubeletProbeHeaderName t ->
         IsKubeletProbe (requestWith (textproto.Set_ h t v))
         = Ok (gostrings.HasPrefix (default "" (firstValue h "User-Agent")) "kube-probe/"
               || negb (String.eqb v ""),
               requestWith (textproto.Set_ h t v)))
  /\ (forall (sniff : string -> string) (w : httptest.ResponseRecorder)
             (h : Header) (t hh : string),
         httptest.wroteHeader w = false ->
         sameNameUpToCase HashHeaderName t ->
         (hh <> "" ->
          ServeKProbe (httptest.Recorder sniff)
            (mkExchange w (requestWith (textproto.Set_ h t hh)))
          = Ok (tt, mkExchange
                      (written 200
                         (<["K-Network-Hash" := [hh]]> (httptest.HeaderMap w))
                         (httptest.Body w) (httptest.Flushed w))
                      (requestWith (textproto.Set_ h t hh))))
         /\ ServeKProbe (httptest.Recorder sniff)
              (mkExchange w (requestWith (textproto.Set_ h t "")))
            = Ok (tt, mkExchange
                        (written 400 (errorHeaders (httptest.HeaderMap w))
                           (httptest.Body w ++ probeErrorLine) (httptest.Flushed w))
                        (requestWith (textproto.Set_ h t "")))
         /\ (forall t2 : string,
                sameNameUpToCase HashHeaderName t2 ->
                textproto.Get (<["K-Network-Hash" := [hh]]> (httptest.HeaderMap w)) t2
                = hh))
  /\ IsKubeletProbe (requestWith {[ "user-agent" := ["kube-probe/1.27"] ]})
     = Ok (false, requestWith {[ "user-agent" := ["kube-probe/1.27"] ]})
  /\ IsKubeletProbe (requestWith {[ "k-kubelet-probe" := ["yes"] ]})
     = Ok (false, requestWith {[ "k-kubelet-probe" := ["yes"] ]})
  /\ IsKubeletProbe (requestWith (textproto.Set_ ∅ "user-agent" "kube-probe/1.27"))
     = Ok (true, requestWith (textproto.Set_ ∅ "user-agent" "kube-probe/1.27"))
  /\ IsKubeletProbe (requestWith (textproto.Set_ ∅ "K-KUBELET-PROBE" "yes"))
     = Ok (true, requestWith (textproto.Set_ ∅ "K-KUBELET-PROBE" "yes"))
  /\ ServeKProbe (httptest.Recorder octetStream)
       (mkExchange httptest.NewRecorder (requestWith {[ "k-network-hash" := ["rev-42"] ]}))
     = Ok (tt, mkExchange
                 (written 400
                    {[ "Content-Type" := ["text/plain; charset=utf-8"];
                       "X-Content-Type-Options" := ["nosniff"] ]}
                    probeErrorLine false)
                 (requestWith {[ "k-network-hash" := ["rev-42"] ]}))
  /\ ServeKProbe (httptest.Recorder octetStream)
       (mkExchange httptest.NewRecorder
          (requestWith (textproto.Set_ ∅ "k-network-hash" "rev-42")))
     = Ok (tt, mkExchange
                 (written 200 {[ "K-Network-Hash" := ["rev-42"] ]} "" false)
                 (requestWith (textproto.Set_ ∅ "k-network-hash" "rev-42"))).
Proof.
  assert (Hget : forall (r : Request) (s t : string),
             tokenName s = true -> sameNameUpToCase s t ->
             Request_Header_Get t r = Request_Header_Get s r).
  { intros r s t Hs Hst. unfold Request_Header_Get, gets, textproto.Get.
    rewrite (CanonicalMIMEHeaderKey_up_to_case s t Hs Hst). reflexivity. }
  assert (Hset : forall (h : Header) (s t v : string),
             tokenName s = true -> sameNameUpToCase s t ->
             textproto.Set_ h t v = <[textproto.CanonicalMIMEHeaderKey s := [v]]> h).
  { intros h s t v Hs Hst. unfold textproto.Set_.
    rewrite (CanonicalMIMEHeaderKey_up_to_case s t Hs Hst). reflexivity. }
  assert (Hnames : forall (s t : string),
             tokenName s = true -> sameNameUpToCase s t ->
             textproto.CanonicalMIMEHeaderKey s = textproto.CanonicalMIMEHeaderKey t
             /\ (forall h : Header, textproto.Get h s = textproto.Get h t)
             /\ (forall (h : Header) (v : string),
                    textproto.Set_ h s v = textproto.Set_ h t v)).
  { intros s t Hs Hst.
    pose proof (CanonicalMIMEHeaderKey_up_to_case s t Hs Hst) as Hc.
    split; [exact Hc|]. split.
    - intros h. unfold textproto.Get. rewrite Hc. reflexivity.
    - intros h v. unfold textproto.Set_. rewrite Hc. reflexivity. }
  assert (Hlookups : forall (r : Request) (t : string),
             (sameNameUpToCase UserAgentKey t ->
              Request_Header_Get t r = Request_Header_Get UserAgentKey r)
             /\ (sameNameUpToCase KubeletProbeHeaderName t ->
                 Request_Header_Get t r = Request_Header_Get KubeletProbeHeaderName r)
             /\ (sameNameUpToCase ProbeHeaderName t ->
                 Request_Header_Get t r = Request_Header_Get ProbeHeaderName r)
             /\ (sameNameUpToCase HashHeaderName t ->
                 Request_Header_Get t r = Request_Header_Get HashHeaderName r)).
  { intros r t. repeat split; intros Hst; apply Hget; auto. }
  assert (Hprobe : forall (h : Header) (t v : string),
             sameNameUpToCase ProbeHeaderName t ->
             IsKProbe (requestWith (textproto.Set_ h t v))
             = Ok (String.eqb v "probe", requestWith (textproto.Set_ h t v))).
  { intros h t v Hst. rewrite IsKProbe_run. cbn [Header_ requestWith].
    rewrite (Hset h ProbeHeaderName t v eq_refl Hst).
    change (textproto.CanonicalMIMEHeaderKey ProbeHeaderName) with "K-Network-Probe".
    unfold firstValue. rewrite lookup_insert_eq. reflexivity. }
  assert (Hua : forall (h : Header) (t v : string),
             sameNameUpToCase UserAgentKey t ->
             IsKubeletProbe (requestWith (textproto.Set_ h t v))
             = Ok (gostrings.HasPrefix v "kube-probe/"
                   || negb (String.eqb (default "" (firstValue h "K-Kubelet-Probe")) ""),
                   requestWith (textproto.Set_ h t v))).
  { intros h t v Hst. rewrite IsKubeletProbe_run. cbn [Header_ requestWith].
    rewrite (Hset h UserAgentKey t v eq_refl Hst).
    change (textproto.CanonicalMIMEHeaderKey UserAgentKey) with "User-Agent".
    unfold firstValue. rewrite lookup_insert_eq.
    rewrite lookup_insert_ne by discriminate. reflexivity. }
  assert (Hkp : forall (h : Header) (t v : string),
             sameNameUpToCase KubeletProbeHeaderName t ->
             IsKubeletProbe (requestWith (textproto.Set_ h t v))
             = Ok (gostrings.HasPrefix (default "" (firstValue h "User-Agent"))
                     "kube-probe/"
                   || negb (String.eqb v ""),
                   requestWith (textproto.Set_ h t v))).
  { intros h t v Hst. rewrite IsKubeletProbe_run. cbn [Header_ requestWith].
    rewrite (Hset h KubeletProbeHeaderName t v eq_refl Hst).
    change (textproto.CanonicalMIMEHeaderKey KubeletProbeHeaderName)
      with "K-Kubelet-Probe".
    unfold firstValue. rewrite lookup_insert_eq.
    rewrite lookup_insert_ne by discriminate. reflexivity. }
  assert (Hserve : forall (sniff : string -> string) (w : httptest.ResponseRecorder)
                          (h : Header) (t hh : string),
             httptest.wroteHeader w = false ->
             sameNameUpToCase HashHeaderName t ->
             (hh <> "" ->
              ServeKProbe (httptest.Recorder sniff)
                (mkExchange w (requestWith (textproto.Set_ h t hh)))
              = Ok (tt, mkExchange
                          (written 200
                             (<["K-Network-Hash" := [hh]]> (httptest.HeaderMap w))
                             (httptest.Body w) (httptest.Flushed w))
                          (requestWith (textproto.Set_ h t hh))))
             /\ ServeKProbe (httptest.Recorder sniff)
                  (mkExchange w (requestWith (textproto.Set_ h t "")))
                = Ok (tt, mkExchange
                            (written 400 (errorHeaders (httptest.HeaderMap w))
                               (httptest.Body w ++ probeErrorLine) (httptest.Flushed w))
                            (requestWith (textproto.Set_ h t "")))
             /\ (forall t2 : string,
                    sameNameUpToCase HashHeaderName t2 ->
                    textproto.Get (<["K-Network-Hash" := [hh]]> (httptest.HeaderMap w)) t2
                    = hh)).
  { intros sniff w h t hh Hw Hst.
    assert (Hfv : forall v : string,
               firstValue (Header_ (requestWith (textproto.Set_ h t v))) "K-Network-Hash"
               = Some v).
    { intros v. cbn [Header_ requestWith].
      rewrite (Hset h HashHeaderName t v eq_refl Hst).
      change (textproto.CanonicalMIMEHeaderKey HashHeaderName) with "K-Network-Hash".
      unfold firstValue. rewrite lookup_insert_eq. reflexivity. }
    split; [|split].
    - intros Hne. apply (ServeKProbe_echo sniff w _ hh Hw (Hfv hh) Hne).
    - apply ServeKProbe_missing; [exact Hw|]. rewrite (Hfv ""). reflexivity.
    - intros t2 Ht2. unfold textproto.Get.
      rewrite <- (CanonicalMIMEHeaderKey_up_to_case HashHeaderName t2 eq_refl Ht2).
      change (textproto.CanonicalMIMEHeaderKey HashHeaderName) with "K-Network-Hash".
      rewrite lookup_insert_eq. reflexivity. }
  split; [exact Hnames|]. split; [exact Hlookups|]. split; [exact Hprobe|].
  do 10 (split; [reflexivity|]).
  split; [exact Hua|]. split; [exact Hkp|]. split; [exact Hserve|].
  do 5 (split; [reflexivity|]). reflexivity.
Qed.

(** * Further properties of the code *)

(** ** The responder on a recorder that has already written its header *)

Section ServeLate.

Variable sniff : string -> string.

Lemma ServeKProbe_missing_late (w : httptest.ResponseRecorder) (r : Request) :
  httptest.wroteHeader w = true ->
  default "" (firstValue (Header_ r) "K-Network-Hash") = "" ->
  ServeKProbe (httptest.Recorder sniff) (mkExchange w r)
  = Ok (tt, mkExchange
              {| httptest.Code := httptest.Code w;
                 httptest.HeaderMap := errorHeaders (httptest.HeaderMap w);
                 httptest.Body := httptest.Body w ++ probeErrorLine;
                 httptest.Flushed := httptest.Flushed w;
                 httptest.snapHeader := httptest.snapHeader w;
                 httptest.wroteHeader := true |}
              r).
Proof.
  intros Hw Hh.
  cbv beta iota delta [ServeKProbe bind onRequest onWriter Request_Header_Get gets
                       request writer].
  rewrite Get_Hash, Hh. cbv beta iota.
  change (String.eqb "" "") with true. cbv beta iota.
  rewrite Error_again by exact Hw. reflexivity.
Qed.

Lemma ServeKProbe_echo_late (w : httptest.ResponseRecorder) (r : Request) (hh : string) :
  httptest.wroteHeader w = true ->
  firstValue (Header_ r) "K-Network-Hash" = Some hh ->
  hh <> "" ->
  ServeKProbe (httptest.Recorder sniff) (mkExchange w r)
  = Ok (tt, mkExchange
              {| httptest.Code := httptest.Code w;
                 httptest.HeaderMap := <["K-Network-Hash" := [hh]]> (httptest.HeaderMap w);
                 httptest.Body := httptest.Body w;
                 httptest.Flushed := httptest.Flushed w;
                 httptest.snapHeader := httptest.snapHeader w;
                 httptest.wroteHeader := true |}
              r).
Proof.
  intros Hw Hh Hne.
  cbv beta iota delta [ServeKProbe bind onRequest onWriter Request_Header_Get gets
                       request writer].
  rewrite Get_Hash, Hh. change (default "" (Some hh)) with hh.
  apply String.eqb_neq in Hne. cbv beta iota. rewrite Hne. cbv beta iota.
  destruct w as [c0 m body fl snap wrote]. simpl in Hw. subst wrote.
  reflexivity.
Qed.

End ServeLate.

(** The hash value of a request is either missing (absent or empty) or a
    string that is not empty. *)
Lemma hash_cases (r : Request) :
  default "" (firstValue (Header_ r) "K-Network-Hash") = ""
  \/ exists hh, firstValue (Header_ r) "K-Network-Hash" = Some hh /\ hh <> "".
Proof.
  destruct (firstValue (Header_ r) "K-Network-Hash") as [hh|]; [|left; reflexivity].
  destruct (String.eqb_spec hh "") as [->|Hne]; [left; reflexivity|].
  right. exists hh. split; [reflexivity | exact Hne].
Qed.

Lemma firstValue_Set_other (h : Header) (key value name : string) :
  textproto.CanonicalMIMEHeaderKey key <> name ->
  firstValue (textproto.Set_ h key value) name = firstValue h name.
Proof.
  intros Hne. unfold firstValue, textproto.Set_.
  rewrite lookup_insert_ne by exact Hne. reflexivity.
Qed.

Lemma firstValue_Del_other (h : Header) (key name : string) :
  textproto.CanonicalMIMEHeaderKey key <> name ->
  firstValue (textproto.Del h key) name = firstValue h name.
Proof.
  intros Hne. unfold firstValue, textproto.Del.
  rewrite lookup_delete_ne by exact Hne. reflexivity.
Qed.

(** ** What each operation depends on *)

(** X1. [IsKubeletProbe] reads the headers [User-Agent] and
    [K-Kubelet-Probe] only: setting or deleting any header with another
    canonical key leaves its answer as it was. *)
Theorem IsKubeletProbe_ignores_other_headers (r : Request) (key value : string) :
  textproto.CanonicalMIMEHeaderKey key <> "User-Agent" ->
  textproto.CanonicalMIMEHeaderKey key <> "K-Kubelet-Probe" ->
  exists b : bool,
    IsKubeletProbe r = Ok (b, r)
    /\ IsKubeletProbe (withHeader r (textproto.Set_ (Header_ r) key value))
       = Ok (b, withHeader r (textproto.Set_ (Header_ r) key value))
    /\ IsKubeletProbe (withHeader r (textproto.Del (Header_ r) key))
       = Ok (b, withHeader r (textproto.Del (Header_ r) key)).
Proof.
  intros Hua Hkp. eexists. split; [apply IsKubeletProbe_run|].
  split; rewrite IsKubeletProbe_run; cbn [Header_ withHeader].
  - rewrite !firstValue_Set_other by assumption. reflexivity.
  - rewrite !firstValue_Del_other by assumption. reflexivity.
Qed.

Lemma IsKubeletProbe_ignores_other_headers_witness :
  textproto.CanonicalMIMEHeaderKey "k-network-probe" <> "User-Agent"
  /\ textproto.CanonicalMIMEHeaderKey "k-network-probe" <> "K-Kubelet-Probe"
  /\ exists b : bool,
       IsKubeletProbe (requestWith {[ "User-Agent" := ["kube-probe/1.27"] ]})
       = Ok (b, requestWith {[ "User-Agent" := ["kube-probe/1.27"] ]})
       /\ IsKubeletProbe
            (withHeader (requestWith {[ "User-Agent" := ["kube-probe/1.27"] ]})
               (textproto.Set_
                  (Header_ (requestWith {[ "User-Agent" := ["kube-probe/1.27"] ]}))
                  "k-network-probe" "probe"))
          = Ok (b, withHeader (requestWith {[ "User-Agent" := ["kube-probe/1.27"] ]})
                     (textproto.Set_
                        (Header_ (requestWith {[ "User-Agent" := ["kube-probe/1.27"] ]}))
                        "k-network-probe" "probe"))
       /\ IsKubeletProbe
            (withHeader (requestWith {[ "User-Agent" := ["kube-probe/1.27"] ]})
               (textproto.Del
                  (Header_ (requestWith {[ "User-Agent" := ["kube-probe/1.27"] ]}))
                  "k-network-probe"))
          = Ok (b, withHeader (requestWith {[ "User-Agent" := ["kube-probe/1.27"] ]})
                     (textproto.Del
                        (Header_ (requestWith {[ "User-Agent" := ["kube-probe/1.27"] ]}))
                        "k-network-probe")).
Proof.
  split; [discriminate|]. split; [discriminate|].
  apply (IsKubeletProbe_ignores_other_headers
           (requestWith {[ "User-Agent" := ["kube-probe/1.27"] ]})
           "k-network-probe" "probe"); discriminate.
Defined.

(** X2. [IsKProbe] reads the header [K-Network-Probe] only: setting or
    deleting any header with another canonical key leaves its answer as it
    was, while setting [K-Network-Probe] itself, under any spelling of that
    name, makes the answer the comparison of the new value with [probe]. *)
Theorem IsKProbe_ignores_other_headers (r : Request) (key value : string) :
  textproto.CanonicalMIMEHeaderKey key <> "K-Network-Probe" ->
  exists b : bool,
    IsKProbe r = Ok (b, r)
    /\ IsKProbe (withHeader r (textproto.Set_ (Header_ r) key value))
       = Ok (b, withHeader r (textproto.Set_ (Header_ r) key value))
    /\ IsKProbe (withHeader r (textproto.Del (Header_ r) key))
       = Ok (b, withHeader r (textproto.Del (Header_ r) key))
    /\ (forall t : string,
           sameNameUpToCase ProbeHeaderName t ->
           IsKProbe (withHeader r (textproto.Set_ (Header_ r) t value))
           = Ok (String.eqb value "probe",
                 withHeader r (textproto.Set_ (Header_ r) t value))).
Proof.
  intros Hne. eexists. split; [apply IsKProbe_run|].
  split; [|split].
  - rewrite IsKProbe_run; cbn [Header_ withHeader].
    rewrite firstValue_Set_other by assumption. reflexivity.
  - rewrite IsKProbe_run; cbn [Header_ withHeader].
    rewrite firstValue_Del_other by assumption. reflexivity.
  - intros t Ht. rewrite IsKProbe_run; cbn [Header_ withHeader].
    unfold firstValue, textproto.Set_.
    rewrite <- (CanonicalMIMEHeaderKey_up_to_case ProbeHeaderName t eq_refl Ht).
    change (textproto.CanonicalMIMEHeaderKey ProbeHeaderName) with "K-Network-Probe".
    rewrite lookup_insert_eq. reflexivity.
Qed.

Lemma IsKProbe_ignores_other_headers_witness :
  textproto.CanonicalMIMEHeaderKey "user-agent" <> "K-Network-Probe"
  /\ exists b : bool,
       IsKProbe (requestWith {[ "K-Network-Probe" := ["probe"] ]})
       = Ok (b, requestWith {[ "K-Network-Probe" := ["probe"] ]})
       /\ IsKProbe
            (withHeader (requestWith {[ "K-Network-Probe" := ["probe"] ]})
               (textproto.Set_ (Header_ (requestWith {[ "K-Network-Probe" := ["probe"] ]}))
                  "user-agent" "kube-probe/1.27"))
          = Ok (b, withHeader (requestWith {[ "K-Network-Probe" := ["probe"] ]})
                     (textproto.Set_
                        (Header_ (requestWith {[ "K-Network-Probe" := ["probe"] ]}))
                        "user-agent" "kube-probe/1.27"))
       /\ IsKProbe
            (withHeader (requestWith {[ "K-Network-Probe" := ["probe"] ]})
               (textproto.Del (Header_ (requestWith {[ "K-Network-Probe" := ["probe"] ]}))
                  "user-agent"))
          = Ok (b, withHeader (requestWith {[ "K-Network-Probe" := ["probe"] ]})
                     (textproto.Del
                        (Header_ (requestWith {[ "K-Network-Probe" := ["probe"] ]}))
                        "user-agent"))
       /\ (forall t : string,
              sameNameUpToCase ProbeHeaderName t ->
              IsKProbe
                (withHeader (requestWith {[ "K-Network-Probe" := ["probe"] ]})
                   (textproto.Set_
                      (Header_ (requestWith {[ "K-Network-Probe" := ["probe"] ]}))
                      t "kube-probe/1.27"))
              = Ok (String.eqb "kube-probe/1.27" "probe",
                    withHeader (requestWith {[ "K-Network-Probe" := ["probe"] ]})
                      (textproto.Set_
                         (Header_ (requestWith {[ "K-Network-Probe" := ["probe"] ]}))
                         t "kube-probe/1.27"))).
Proof.
  split; [discriminate|].
  apply (IsKProbe_ignores_other_headers
           (requestWith {[ "K-Network-Probe" := ["probe"] ]})
           "user-agent" "kube-probe/1.27"); discriminate.
Defined.

(** ** The four runs of the responder *)

Lemma append_empty_r (s : string) : s ++ "" = s.
Proof.
  induction s as [|c s IH]; [reflexivity|].
  rewrite append_String, IH. reflexivity.
Qed.

(** Every run of [ServeKProbe] is one of four: the hash is missing or given,
    and the recorder has written its header or has not. *)
Lemma ServeKProbe_cases
    (sniff : string -> string) (w : httptest.ResponseRecorder) (r : Request) :
  exists w',
    ServeKProbe (httptest.Recorder sniff) (mkExchange w r) = Ok (tt, mkExchange w' r)
    /\ ((default "" (firstValue (Header_ r) "K-Network-Hash") = ""
         /\ httptest.wroteHeader w = false
         /\ w' = written 400 (errorHeaders (httptest.HeaderMap w))
                   (httptest.Body w ++ probeErrorLine) (httptest.Flushed w))
        \/ (default "" (firstValue (Header_ r) "K-Network-Hash") = ""
            /\ httptest.wroteHeader w = true
            /\ w' = {| httptest.Code := httptest.Code w;
                       httptest.HeaderMap := errorHeaders (httptest.HeaderMap w);
                       httptest.Body := httptest.Body w ++ probeErrorLine;
                       httptest.Flushed := httptest.Flushed w;
                       httptest.snapHeader := httptest.snapHeader w;
                       httptest.wroteHeader := true |})
        \/ (exists hh,
               firstValue (Header_ r) "K-Network-Hash" = Some hh /\ hh <> ""
               /\ httptest.wroteHeader w = false
               /\ w' = written 200 (<["K-Network-Hash" := [hh]]> (httptest.HeaderMap w))
                         (httptest.Body w) (httptest.Flushed w))
        \/ (exists hh,
               firstValue (Header_ r) "K-Network-Hash" = Some hh /\ hh <> ""
               /\ httptest.wroteHeader w = true
               /\ w' = {| httptest.Code := httptest.Code w;
                          httptest.HeaderMap :=
                            <["K-Network-Hash" := [hh]]> (httptest.HeaderMap w);
                          httptest.Body := httptest.Body w;
                          httptest.Flushed := httptest.Flushed w;
                          httptest.snapHeader := httptest.snapHeader w;
                          httptest.wroteHeader := true |})).
Proof.
  destruct (hash_cases r) as [Hm|(hh & Hh & Hne)];
    destruct (httptest.wroteHeader w) eqn:Hw.
  - eexists. split; [apply ServeKProbe_missing_late; assumption|].
    right; left. repeat split; assumption.
  - eexists. split; [apply ServeKProbe_missing; assumption|].
    left. repeat split; assumption.
  - eexists. split; [apply (ServeKProbe_echo_late sniff w r hh); assumption|].
    right; right; right. exists hh. repeat split; assumption.
  - eexists. split; [apply (ServeKProbe_echo sniff w r hh); assumption|].
    right; right; left. exists hh. repeat split; assumption.
Qed.

(** X3. What [ServeKProbe] does to the writer depends on the request through
    the header [K-Network-Hash] only: setting or deleting any request header
    with another canonical key gives the same recorder state, whatever state
    the recorder started in. *)
Theorem ServeKProbe_ignores_other_request_headers
    (sniff : string -> string) (w : httptest.ResponseRecorder) (r : Request)
    (key value : string) :
  textproto.CanonicalMIMEHeaderKey key <> "K-Network-Hash" ->
  exists w',
    ServeKProbe (httptest.Recorder sniff) (mkExchange w r) = Ok (tt, mkExchange w' r)
    /\ ServeKProbe (httptest.Recorder sniff)
         (mkExchange w (withHeader r (textproto.Set_ (Header_ r) key value)))
       = Ok (tt, mkExchange w' (withHeader r (textproto.Set_ (Header_ r) key value)))
    /\ ServeKProbe (httptest.Recorder sniff)
         (mkExchange w (withHeader r (textproto.Del (Header_ r) key)))
       = Ok (tt, mkExchange w' (withHeader r (textproto.Del (Header_ r) key))).
Proof.
  intros Hne.
  destruct (ServeKProbe_by_hash sniff w r
              (withHeader r (textproto.Set_ (Header_ r) key value)))
    as (w1 & H1 & H1').
  { cbn [Header_ withHeader]. symmetry. apply firstValue_Set_other, Hne. }
  destruct (ServeKProbe_by_hash sniff w r
              (withHeader r (textproto.Del (Header_ r) key)))
    as (w2 & H2 & H2').
  { cbn [Header_ withHeader]. symmetry. apply firstValue_Del_other, Hne. }
  assert (w2 = w1) as -> by congruence.
  exists w1. repeat split; assumption.
Qed.

Lemma ServeKProbe_ignores_other_request_headers_witness :
  textproto.CanonicalMIMEHeaderKey "k-network-probe" <> "K-Network-Hash"
  /\ exists w',
       ServeKProbe (httptest.Recorder octetStream)
         (mkExchange httptest.NewRecorder (requestWith {[ "K-Network-Hash" := ["rev-42"] ]}))
       = Ok (tt, mkExchange w' (requestWith {[ "K-Network-Hash" := ["rev-42"] ]}))
       /\ ServeKProbe (httptest.Recorder octetStream)
            (mkExchange httptest.NewRecorder
               (withHeader (requestWith {[ "K-Network-Hash" := ["rev-42"] ]})
                  (textproto.Set_
                     (Header_ (requestWith {[ "K-Network-Hash" := ["rev-42"] ]}))
                     "k-network-probe" "probe")))
          = Ok (tt, mkExchange w'
                      (withHeader (requestWith {[ "K-Network-Hash" := ["rev-42"] ]})
                         (textproto.Set_
                            (Header_ (requestWith {[ "K-Network-Hash" := ["rev-42"] ]}))
                            "k-network-probe" "probe")))
       /\ ServeKProbe (httptest.Recorder octetStream)
            (mkExchange httptest.NewRecorder
               (withHeader (requestWith {[ "K-Network-Hash" := ["rev-42"] ]})
                  (textproto.Del
                     (Header_ (requestWith {[ "K-Network-Hash" := ["rev-42"] ]}))
                     "k-network-probe")))
          = Ok (tt, mkExchange w'
                      (withHeader (requestWith {[ "K-Network-Hash" := ["rev-42"] ]})
                         (textproto.Del
                            (Header_ (requestWith {[ "K-Network-Hash" := ["rev-42"] ]}))
                            "k-network-probe"))).
Proof.
  split; [discriminate|].
  apply (ServeKProbe_ignores_other_request_headers octetStream httptest.NewRecorder
           (requestWith {[ "K-Network-Hash" := ["rev-42"] ]}) "k-network-probe" "probe").
  discriminate.
Defined.

(** X4. The hash makes the round trip.  When a request has been given the
    hash [hh], not empty, by [Header.Set] under any spelling of
    [K-Network-Hash], then after [ServeKProbe] on a recorder that has not
    written its header, [Header.Get] under any spelling of that name returns
    [hh], both from the live header map of the response and from the headers
    as sent. *)
Theorem ServeKProbe_hash_round_trip
    (sniff : string -> string) (w : httptest.ResponseRecorder) (h0 : Header)
    (t1 t2 hh : string) :
  httptest.wroteHeader w = false ->
  sameNameUpToCase HashHeaderName t1 ->
  sameNameUpToCase HashHeaderName t2 ->
  hh <> "" ->
  exists w' sent,
    ServeKProbe (httptest.Recorder sniff)
      (mkExchange w (requestWith (textproto.Set_ h0 t1 hh)))
    = Ok (tt, mkExchange w' (requestWith (textproto.Set_ h0 t1 hh)))
    /\ httptest.Code w' = 200%Z
    /\ textproto.Get (httptest.HeaderMap w') t2 = hh
    /\ httptest.snapHeader w' = Some sent
    /\ textproto.Get sent t2 = hh.
Proof.
  intros Hw Ht1 Ht2 Hne.
  assert (Hfv : firstValue (Header_ (requestWith (textproto.Set_ h0 t1 hh)))
                  "K-Network-Hash" = Some hh).
  { cbn [Header_ requestWith]. unfold firstValue, textproto.Set_.
    rewrite <- (CanonicalMIMEHeaderKey_up_to_case HashHeaderName t1 eq_refl Ht1).
    change (textproto.CanonicalMIMEHeaderKey HashHeaderName) with "K-Network-Hash".
    rewrite lookup_insert_eq. reflexivity. }
  assert (Hget : textproto.Get (<["K-Network-Hash" := [hh]]> (httptest.HeaderMap w)) t2
                 = hh).
  { unfold textproto.Get.
    rewrite <- (CanonicalMIMEHeaderKey_up_to_case HashHeaderName t2 eq_refl Ht2).
    change (textproto.CanonicalMIMEHeaderKey HashHeaderName) with "K-Network-Hash".
    rewrite lookup_insert_eq. reflexivity. }
  do 2 eexists. split; [apply (ServeKProbe_echo sniff w _ hh); assumption|].
  split; [reflexivity|]. split; [exact Hget|]. split; [reflexivity | exact Hget].
Qed.

Lemma ServeKProbe_hash_round_trip_witness :
  httptest.wroteHeader httptest.NewRecorder = false
  /\ sameNameUpToCase HashHeaderName "k-network-hash"
  /\ sameNameUpToCase HashHeaderName "K-NETWORK-HASH"
  /\ "rev-42" <> ""
  /\ exists w' sent,
       ServeKProbe (httptest.Recorder octetStream)
         (mkExchange httptest.NewRecorder
            (requestWith (textproto.Set_ ∅ "k-network-hash" "rev-42")))
       = Ok (tt, mkExchange w' (requestWith (textproto.Set_ ∅ "k-network-hash" "rev-42")))
       /\ httptest.Code w' = 200%Z
       /\ textproto.Get (httptest.HeaderMap w') "K-NETWORK-HASH" = "rev-42"
       /\ httptest.snapHeader w' = Some sent
       /\ textproto.Get sent "K-NETWORK-HASH" = "rev-42".
Proof.
  split; [reflexivity|]. split; [reflexivity|]. split; [reflexivity|].
  split; [discriminate|].
  apply (ServeKProbe_hash_round_trip octetStream httptest.NewRecorder ∅
           "k-network-hash" "K-NETWORK-HASH" "rev-42");
    [reflexivity | reflexivity | reflexivity | discriminate].
Defined.

(** ** The responder and the state of the response *)

(** X5. On a recorder that has already written its header [ServeKProbe]
    cannot change the reply as sent: the status code and the snapshot of the
    sent headers stay.  With the hash missing the error line is still
    appended to the body; with a hash given the body stays and only the live
    header map receives the hash. *)
Theorem ServeKProbe_after_header_written
    (sniff : string -> string) (w : httptest.ResponseRecorder) (r : Request) :
  httptest.wroteHeader w = true ->
  exists w',
    ServeKProbe (httptest.Recorder sniff) (mkExchange w r) = Ok (tt, mkExchange w' r)
    /\ httptest.Code w' = httptest.Code w
    /\ httptest.snapHeader w' = httptest.snapHeader w
    /\ httptest.wroteHeader w' = true
    /\ (firstValue (Header_ r) "K-Network-Hash" = None
        \/ firstValue (Header_ r) "K-Network-Hash" = Some "" ->
        httptest.Body w' = httptest.Body w ++ probeErrorLine)
    /\ (forall hh : string,
           firstValue (Header_ r) "K-Network-Hash" = Some hh -> hh <> "" ->
           httptest.Body w' = httptest.Body w
           /\ httptest.HeaderMap w'
              = <["K-Network-Hash" := [hh]]> (httptest.HeaderMap w)).
Proof.
  intros Hw.
  destruct (ServeKProbe_cases sniff w r)
    as (w' & Hrun & [(Hm & Hw' & ->)|[(Hm & _ & ->)|[(hh & Hh & Hne & Hw' & ->)
                                                     |(hh & Hh & Hne & _ & ->)]]]);
    try congruence.
  - eexists. split; [exact Hrun|]. cbn.
    split; [reflexivity|]. split; [reflexivity|]. split; [reflexivity|].
    split; [reflexivity|].
    intros hh Hh Hne. rewrite Hh in Hm. contradiction.
  - eexists. split; [exact Hrun|]. cbn.
    split; [reflexivity|]. split; [reflexivity|]. split; [reflexivity|].
    split.
    + intros [Hn|He]; congruence.
    + intros hh' Hh' _. assert (hh' = hh) as -> by congruence.
      split; reflexivity.
Qed.

Lemma ServeKProbe_after_header_written_witness :
  httptest.wroteHeader (written 204 ∅ "" false) = true
  /\ exists w',
       ServeKProbe (httptest.Recorder octetStream)
         (mkExchange (written 204 ∅ "" false) (requestWith ∅))
       = Ok (tt, mkExchange w' (requestWith ∅))
       /\ httptest.Code w' = httptest.Code (written 204 ∅ "" false)
       /\ httptest.snapHeader w' = httptest.snapHeader (written 204 ∅ "" false)
       /\ httptest.wroteHeader w' = true
       /\ (firstValue (Header_ (requestWith ∅)) "K-Network-Hash" = None
           \/ firstValue (Header_ (requestWith ∅)) "K-Network-Hash" = Some "" ->
           httptest.Body w' = httptest.Body (written 204 ∅ "" false) ++ probeErrorLine)
       /\ (forall hh : string,
              firstValue (Header_ (requestWith ∅)) "K-Network-Hash" = Some hh ->
              hh <> "" ->
              httptest.Body w' = httptest.Body (written 204 ∅ "" false)
              /\ httptest.HeaderMap w'
                 = <["K-Network-Hash" := [hh]]>
                     (httptest.HeaderMap (written 204 ∅ "" false))).
Proof.
  split; [reflexivity|].
  apply (ServeKProbe_after_header_written octetStream (written 204 ∅ "" false)
           (requestWith ∅)).
  reflexivity.
Defined.

(** X6. Serving the same request twice on one recorder.  The second call
    cannot change the status or the headers as sent by the first.  With a
    hash given the second call changes nothing at all: two calls in a row
    leave the recorder as one call does.  With the hash missing the second
    call appends the error line once more. *)
Theorem ServeKProbe_twice
    (sniff : string -> string) (w : httptest.ResponseRecorder) (r : Request) :
  exists w1 w2,
    ServeKProbe (httptest.Recorder sniff) (mkExchange w r) = Ok (tt, mkExchange w1 r)
    /\ (ServeKProbe (httptest.Recorder sniff) ;; ServeKProbe (httptest.Recorder sniff))
         (mkExchange w r)
       = Ok (tt, mkExchange w2 r)
    /\ httptest.Code w2 = httptest.Code w1
    /\ httptest.snapHeader w2 = httptest.snapHeader w1
    /\ (forall hh : string,
           firstValue (Header_ r) "K-Network-Hash" = Some hh -> hh <> "" -> w2 = w1)
    /\ (firstValue (Header_ r) "K-Network-Hash" = None
        \/ firstValue (Header_ r) "K-Network-Hash" = Some "" ->
        httptest.Body w2 = httptest.Body w1 ++ probeErrorLine).
Proof.
  destruct (ServeKProbe_cases sniff w r) as (w1 & Hrun & Hcase).
  assert (Hw1 : httptest.wroteHeader w1 = true).
  { destruct Hcase as [(_ & _ & ->)|[(_ & _ & ->)|[(hh & _ & _ & _ & ->)
                                                   |(hh & _ & _ & _ & ->)]]];
      reflexivity. }
  assert (Hbind : forall x,
             ServeKProbe (httptest.Recorder sniff) (mkExchange w1 r) = x ->
             (ServeKProbe (httptest.Recorder sniff) ;; ServeKProbe (httptest.Recorder sniff))
               (mkExchange w r) = x).
  { intros x Hx. unfold bind at 1. rewrite Hrun. exact Hx. }
  destruct (hash_cases r) as [Hm|(hh & Hh & Hne)].
  - exists w1. eexists. split; [exact Hrun|].
    split; [apply Hbind, ServeKProbe_missing_late; assumption|].
    cbn. split; [reflexivity|]. split; [reflexivity|]. split; [|reflexivity].
    intros hh Hh Hne. rewrite Hh in Hm. contradiction.
  - exists w1, w1. split; [exact Hrun|]. split; [|split; [reflexivity|]].
    + apply Hbind. rewrite (ServeKProbe_echo_late sniff w1 r hh Hw1 Hh Hne).
      destruct Hcase as [(Hm & _)|[(Hm & _)|[(hh' & Hh' & _ & _ & ->)
                                             |(hh' & Hh' & _ & _ & ->)]]];
        try (rewrite Hh in Hm; contradiction);
        assert (hh' = hh) as -> by congruence;
        cbn; unfold written; rewrite insert_insert_eq; reflexivity.
    + split; [reflexivity|]. split; [reflexivity|].
      intros [Hn|He]; congruence.
Qed.

(** X7. [ServeKProbe] keeps what the response already holds: in every run
    the old body is a prefix of the new one, the flush mark stays, and every
    response header other than [K-Network-Hash], [Content-Length],
    [Content-Type] and [X-Content-Type-Options] is left as it was. *)
Theorem ServeKProbe_keeps_other_response_state
    (sniff : string -> string) (w : httptest.ResponseRecorder) (r : Request) :
  exists w' added,
    ServeKProbe (httptest.Recorder sniff) (mkExchange w r) = Ok (tt, mkExchange w' r)
    /\ httptest.Body w' = httptest.Body w ++ added
    /\ httptest.Flushed w' = httptest.Flushed w
    /\ (forall k : string,
           k <> "K-Network-Hash" -> k <> "Content-Length" ->
           k <> "Content-Type" -> k <> "X-Content-Type-Options" ->
           httptest.HeaderMap w' !! k = httptest.HeaderMap w !! k).
Proof.
  assert (Herr : forall (m : Header) (k : string),
             k <> "Content-Length" -> k <> "Content-Type" ->
             k <> "X-Content-Type-Options" -> errorHeaders m !! k = m !! k).
  { intros m k H1 H2 H3. unfold errorHeaders.
    rewrite !lookup_insert_ne by congruence. apply lookup_delete_ne. congruence. }
  destruct (ServeKProbe_cases sniff w r)
    as (w' & Hrun & [(_ & _ & ->)|[(_ & _ & ->)|[(hh & _ & _ & _ & ->)
                                                 |(hh & _ & _ & _ & ->)]]]).
  - eexists; exists probeErrorLine. split; [exact Hrun|]. cbn.
    split; [reflexivity|]. split; [reflexivity|]. intros k _. apply Herr.
  - eexists; exists probeErrorLine. split; [exact Hrun|]. cbn.
    split; [reflexivity|]. split; [reflexivity|]. intros k _. apply Herr.
  - eexists; exists "". split; [exact Hrun|]. cbn.
    split; [symmetry; apply append_empty_r|]. split; [reflexivity|].
    intros k Hk _ _ _. apply lookup_insert_ne. congruence.
  - eexists; exists "". split; [exact Hrun|]. cbn.
    split; [symmetry; apply append_empty_r|]. split; [reflexivity|].
    intros k Hk _ _ _. apply lookup_insert_ne. congruence.
Qed.

(** X8. [ServeKProbe] never has the recorder sniff a content type: whatever
    the state of the recorder, the run is the same for any two sniffing
    algorithms, because every [Write] it causes comes after a
    [WriteHeader]. *)
Theorem ServeKProbe_never_sniffs
    (sniff1 sniff2 : string -> string) (w : httptest.ResponseRecorder) (r : Request) :
  ServeKProbe (httptest.Recorder sniff1) (mkExchange w r)
  = ServeKProbe (httptest.Recorder sniff2) (mkExchange w r).
Proof.
  destruct (hash_cases r) as [Hm|(hh & Hh & Hne)];
    destruct (httptest.wroteHeader w) eqn:Hw.
  - rewrite (ServeKProbe_missing_late sniff1 w r Hw Hm),
      (ServeKProbe_missing_late sniff2 w r Hw Hm). reflexivity.
  - rewrite (ServeKProbe_missing sniff1 w r Hw Hm),
      (ServeKProbe_missing sniff2 w r Hw Hm). reflexivity.
  - rewrite (ServeKProbe_echo_late sniff1 w r hh Hw Hh Hne),
      (ServeKProbe_echo_late sniff2 w r hh Hw Hh Hne). reflexivity.
  - rewrite (ServeKProbe_echo sniff1 w r hh Hw Hh Hne),
      (ServeKProbe_echo sniff2 w r hh Hw Hh Hne). reflexivity.
Qed.

(** X9. [ServeKProbe] always leaves the header of the response written, and
    it keeps the recorder consistent: starting from a consistent recorder,
    one that has a snapshot of its headers exactly when it has written them,
    as [NewRecorder] is, the recorder it leaves is consistent and holds a
    snapshot. *)
Theorem ServeKProbe_completes_the_response :
  recorderConsistent httptest.NewRecorder
  /\ (forall (sniff : string -> string) (w : httptest.ResponseRecorder) (r : Request),
         exists w',
           ServeKProbe (httptest.Recorder sniff) (mkExchange w r)
           = Ok (tt, mkExchange w' r)
           /\ httptest.wroteHeader w' = true
           /\ (recorderConsistent w ->
               recorderConsistent w' /\ is_Some (httptest.snapHeader w'))).
Proof.
  split.
  - unfold recorderConsistent. simpl. split; [discriminate | intros [x Hx]; discriminate].
  - intros sniff w r.
    destruct (ServeKProbe_cases sniff w r)
      as (w' & Hrun & [(_ & _ & ->)|[(_ & Hw & ->)|[(hh & _ & _ & _ & ->)
                                                    |(hh & _ & _ & Hw & ->)]]]);
      eexists; (split; [exact Hrun|]); (split; [reflexivity|]);
      unfold recorderConsistent; cbn; intros Hc.
    + split; [split; eauto|eauto].
    + split; [split; [intros _; apply Hc, Hw | reflexivity] | apply Hc, Hw].
    + split; [split; eauto|eauto].
    + split; [split; [intros _; apply Hc, Hw | reflexivity] | apply Hc, Hw].
Qed.

(** ** The library calls: canonical keys, quoting, prefixes *)

Lemma canonByte_canonByte (upper : bool) (c : ascii) :
  textproto.canonByte upper (textproto.canonByte upper c) = textproto.canonByte upper c.
Proof. each_byte c; destruct upper; reflexivity. Qed.

Lemma validHeaderFieldByte_canonByte (upper : bool) (c : ascii) :
  textproto.validHeaderFieldByte (textproto.canonByte upper c)
  = textproto.validHeaderFieldByte c.
Proof. each_byte c; destruct upper; reflexivity. Qed.

Lemma canonLoop_canonLoop (upper : bool) (s : string) :
  textproto.canonLoop upper (textproto.canonLoop upper s) = textproto.canonLoop upper s.
Proof.
  revert upper; induction s as [|c s IH]; intros upper; [reflexivity|].
  cbn [textproto.canonLoop]. rewrite canonByte_canonByte, IH. reflexivity.
Qed.

Lemma tokenName_canonLoop (upper : bool) (s : string) :
  tokenName (textproto.canonLoop upper s) = tokenName s.
Proof.
  revert upper; induction s as [|c s IH]; intros upper; [reflexivity|].
  cbn [textproto.canonLoop tokenName].
  rewrite validHeaderFieldByte_canonByte, IH. reflexivity.
Qed.

Lemma length_canonLoop (upper : bool) (s : string) :
  String.length (textproto.canonLoop upper s) = String.length s.
Proof.
  revert upper; induction s as [|c s IH]; intros upper; [reflexivity|].
  cbn [textproto.canonLoop String.length]. rewrite IH. reflexivity.
Qed.

Lemma scanKey_Some_false (noCanon : bool) (s : string) :
  textproto.scanKey noCanon s = Some false -> noCanon = false /\ tokenName s = true.
Proof.
  revert noCanon; induction s as [|c s IH]; intros noCanon.
  - cbn. intros [= ->]. split; reflexivity.
  - cbn [textproto.scanKey tokenName].
    destruct (textproto.validHeaderFieldByte c).
    + intros H. apply IH in H. exact H.
    + destruct (Ascii.eqb c " "); [|discriminate].
      intros H. apply IH in H. destruct H as [H _]. discriminate H.
Qed.

(** A name with a byte that is not a token byte is its own canonical key. *)
Lemma CanonicalMIMEHeaderKey_not_token (s : string) :
  tokenName s = false -> textproto.CanonicalMIMEHeaderKey s = s.
Proof.
  intros Hs. unfold textproto.CanonicalMIMEHeaderKey.
  destruct (textproto.needsRewrite true s); [|reflexivity].
  unfold textproto.canonicalMIMEHeaderKey.
  destruct (textproto.scanKey false s) as [[|]|] eqn:Hscan; try reflexivity.
  apply scanKey_Some_false in Hscan. destruct Hscan as [_ Ht]. congruence.
Qed.

(** X10. [CanonicalMIMEHeaderKey] is idempotent and keeps the length of the
    name, and it returns unchanged a name holding a byte that is not a token
    byte (a space or a colon, say): such a name is matched exactly, case
    included.  Hence the key under which [Set] stores a header is the key
    under which [Get] with the stored key finds it again. *)
Theorem CanonicalMIMEHeaderKey_idempotent (s : string) :
  textproto.CanonicalMIMEHeaderKey (textproto.CanonicalMIMEHeaderKey s)
  = textproto.CanonicalMIMEHeaderKey s
  /\ String.length (textproto.CanonicalMIMEHeaderKey s) = String.length s
  /\ (tokenName s = false -> textproto.CanonicalMIMEHeaderKey s = s)
  /\ (forall (h : Header) (v : string),
         textproto.Get (textproto.Set_ h s v) (textproto.CanonicalMIMEHeaderKey s) = v).
Proof.
  assert (Hidem : textproto.CanonicalMIMEHeaderKey (textproto.CanonicalMIMEHeaderKey s)
                  = textproto.CanonicalMIMEHeaderKey s).
  { destruct (tokenName s) eqn:Hs.
    - rewrite (CanonicalMIMEHeaderKey_token s Hs).
      rewrite CanonicalMIMEHeaderKey_token by (rewrite tokenName_canonLoop; exact Hs).
      apply canonLoop_canonLoop.
    - rewrite (CanonicalMIMEHeaderKey_not_token s Hs).
      apply CanonicalMIMEHeaderKey_not_token, Hs. }
  split; [exact Hidem|]. split; [|split].
  - destruct (tokenName s) eqn:Hs.
    + rewrite (CanonicalMIMEHeaderKey_token s Hs). apply length_canonLoop.
    + rewrite (CanonicalMIMEHeaderKey_not_token s Hs). reflexivity.
  - apply CanonicalMIMEHeaderKey_not_token.
  - intros h v. unfold textproto.Get, textproto.Set_.
    rewrite Hidem, lookup_insert_eq. reflexivity.
Qed.

Lemma append_assoc_string (a b c : string) : (a ++ b) ++ c = a ++ (b ++ c).
Proof.
  induction a as [|x a IH]; [reflexivity|].
  rewrite !append_String, IH. reflexivity.
Qed.

Lemma length_append_string (a b : string) :
  String.length (a ++ b) = (String.length a + String.length b)%nat.
Proof.
  induction a as [|x a IH]; [reflexivity|].
  rewrite append_String. cbn [String.length]. rewrite IH. reflexivity.
Qed.

Lemma escapeAll_plain (s : string) :
  plainString s = true -> strconv.escapeAll s = s.
Proof.
  induction s as [|c s IH]; [reflexivity|].
  cbn [plainString strconv.escapeAll]. intros [Hc Hs]%andb_true_iff.
  rewrite (IH Hs). unfold plainByte in Hc.
  apply andb_true_iff in Hc. destruct Hc as [Hc Hb].
  apply andb_true_iff in Hc. destruct Hc as [Hp Hq].
  apply negb_true_iff in Hq, Hb.
  unfold strconv.appendEscapedByte. rewrite Hq, Hb, Hp. reflexivity.
Qed.

(** X11. The verb [%q] copies a name of printable ASCII bytes free of double
    quote and backslash as it is, between two double quotes; so the error
    text of [ServeKProbe] built for such a header name is the fixed words
    around the name in double quotes, and the name [K-Network-Hash] is of
    that kind. *)
Theorem missingHashMessage_plain_name (name : string) :
  plainString name = true ->
  strconv.Quote name = String DQUOTE (name ++ String DQUOTE EmptyString)
  /\ missingHashMessage name
     = "a probe request must contain a non-empty "
       ++ String DQUOTE (name ++ String DQUOTE " header")
  /\ String.length (missingHashMessage name) = (50 + String.length name)%nat.
Proof.
  intros Hp.
  assert (Hq : strconv.Quote name = String DQUOTE (name ++ String DQUOTE EmptyString)).
  { unfold strconv.Quote. rewrite (escapeAll_plain name Hp). reflexivity. }
  assert (Hm : missingHashMessage name
               = "a probe request must contain a non-empty "
                 ++ String DQUOTE (name ++ String DQUOTE " header")).
  { unfold missingHashMessage.
    rewrite Hq, (append_String DQUOTE), append_assoc_string. reflexivity. }
  split; [exact Hq|]. split; [exact Hm|].
  rewrite Hm, length_append_string. cbn [String.length].
  rewrite length_append_string. cbn [String.length]. lia.
Qed.

Lemma missingHashMessage_plain_name_witness :
  plainString HashHeaderName = true
  /\ strconv.Quote HashHeaderName
     = String DQUOTE (HashHeaderName ++ String DQUOTE EmptyString)
  /\ missingHashMessage HashHeaderName
     = "a probe request must contain a non-empty "
       ++ String DQUOTE (HashHeaderName ++ String DQUOTE " header")
  /\ String.length (missingHashMessage HashHeaderName)
     = (50 + String.length HashHeaderName)%nat.
Proof.
  split; [reflexivity|].
  apply (missingHashMessage_plain_name HashHeaderName). reflexivity.
Defined.

(** X12. [strings.HasPrefix] is the prefix order on strings: every string
    has the empty prefix and itself as prefixes, prefixes compose, two
    strings that are prefixes of each other are equal, a prefix is never
    longer than the string, and a prefix of a string is a prefix of every
    extension of it. *)
Theorem HasPrefix_is_prefix_order :
  (forall s : string, gostrings.HasPrefix s "" = true)
  /\ (forall s : string, gostrings.HasPrefix s s = true)
  /\ (forall s p q : string,
         gostrings.HasPrefix s p = true -> gostrings.HasPrefix p q = true ->
         gostrings.HasPrefix s q = true)
  /\ (forall s p : string,
         gostrings.HasPrefix s p = true -> gostrings.HasPrefix p s = true -> s = p)
  /\ (forall s p : string,
         gostrings.HasPrefix s p = true -> (String.length p <= String.length s)%nat)
  /\ (forall s p t : string,
         gostrings.HasPrefix s p = true -> gostrings.HasPrefix (s ++ t) p = true).
Proof.
  assert (Hlen : forall s p : string,
             gostrings.HasPrefix s p = true -> (String.length p <= String.length s)%nat).
  { intros s p [t ->]%HasPrefix_iff. rewrite length_append_string. lia. }
  split; [|split; [|split; [|split; [|split]]]].
  - intros s. apply HasPrefix_iff. exists s. reflexivity.
  - intros s. apply HasPrefix_iff. exists "". symmetry. apply append_empty_r.
  - intros s p q [t ->]%HasPrefix_iff [u ->]%HasPrefix_iff.
    apply HasPrefix_iff. exists (u ++ t). apply append_assoc_string.
  - intros s p Hsp Hps. pose proof (Hlen _ _ Hsp) as L1. pose proof (Hlen _ _ Hps) as L2.
    apply HasPrefix_iff in Hsp. destruct Hsp as [t ->].
    rewrite length_append_string in L2.
    destruct t as [|c t]; [apply append_empty_r|].
    cbn [String.length] in L2. lia.
  - exact Hlen.
  - intros s p t [u ->]%HasPrefix_iff. apply HasPrefix_iff.
    exists (u ++ t). apply append_assoc_string.
Qed.
